(** * alx_travel_app: booking and payment-verification glue

    A shallow embedding of [listings/views.py] and [listings/tasks.py].

    The Python code is effectful: it reads and writes ORM tables, calls the
    payment gateway, enqueues Celery jobs, sends mail and appends to a log
    file.  Those effects are threaded through an explicit [World], and every
    effect is also recorded, in order, in the world's [trace].  A Python
    exception is the [Raise] outcome of the state-and-error monad [M].

    Collaborators whose code is not part of the two files (the ORM, the task
    queue, the file system) are modelled as succeeding; the mail collaborator
    and the payment gateway are parameters of the code that calls them.

    In [views.py] the [def verify_payment_view(request):] line is indented
    under the class while its body sits at the same column; the embedding
    follows the body as a module-level view function, which is how the rest
    of the project refers to it. *)

From Stdlib Require Import ZArith String DecimalString DecimalZ List Lia.
From stdpp Require Import base option strings gmap list.

Open Scope string_scope.
Open Scope Z_scope.

(** ** Python values *)

Module Py.

(** The JSON-like values that travel through the view: what the gateway
    helper hands back and what goes into a [JsonResponse]. *)
#[warnings="-register-all"] Inductive value : Type :=
| None_
| Bool (b : bool)
| Int (z : Z)
| Str (s : string)
| List_ (l : list value)
| Dict (d : list (string * value)).

Inductive exn : Type :=
| AttributeError (attr : string)
| KeyError (key : string)
| SMTPException (msg : string).

Inductive Result (A : Type) : Type :=
| Return (a : A)
| Raise (e : exn).
Arguments Return {A} a.
Arguments Raise {A} e.

Definition is_raise {A} (r : Result A) : bool :=
  match r with Raise _ => true | Return _ => false end.

(** Items of a mapping given as a list of pairs: the binding written last
    for a key is the one the mapping holds ([dict(pairs)], and the value
    [QueryDict.get] picks among repeated query parameters). *)
Fixpoint items_get {V} (key : string) (items : list (string * V)) : option V :=
  match items with
  | [] => None
  | (k, v) :: rest =>
      match items_get key rest with
      | Some v' => Some v'
      | None => if String.eqb k key then Some v else None
      end
  end.

(** [obj.get(key, default)]: only a dict has the method. *)
Definition get (obj : value) (key : string) (dflt : value) : Result value :=
  match obj with
  | Dict d => Return (default dflt (items_get key d))
  | _ => Raise (AttributeError "get")
  end.

(** [v == s] for a string literal [s]. *)
Definition eq_str (v : value) (s : string) : bool :=
  match v with
  | Str t => String.eqb t s
  | _ => false
  end.

(** [str(n)] for an int, as an f-string renders it. *)
Definition str_int (n : Z) : string := NilZero.string_of_int (Z.to_int n).

End Py.

Export Py(Result, Return, Raise).

(** ** Data model *)

(** Modelled from the spec: [listings/models.py] is not part of the two
    files.  A Payment has an identifier, a [booking_reference] string used as
    the lookup key, a free-text [status] and an [amount]; the amount is only
    ever passed along, never computed with. *)
Module Payment.
Record t : Type := mk {
  id : Z;
  booking_reference : string;
  status : string;
  amount : Z
}.

(** [payment.status = s] on the in-memory instance. *)
Definition set_status (s : string) (p : t) : t :=
  {| id := id p; booking_reference := booking_reference p;
     status := s; amount := amount p |}.
End Payment.

(** Modelled from the spec: a Customer carries an email; a Booking has an
    identifier and a reference to its Customer. *)
Module Customer.
Record t : Type := mk { email : string }.
End Customer.

Module Booking.
Record t : Type := mk { id : Z; customer : Customer.t }.
End Booking.

(** A message handed to [django.core.mail.send_mail]. *)
Record Mail : Type := mkMail {
  subject : string;
  message : string;
  from_email : string;
  recipient_list : list string
}.

(** A task call put on the queue by [.delay(...)]: the task and its
    arguments, by value. *)
Inductive Job : Type :=
| send_booking_confirmation_email_job (to_email : string) (booking_id : Z)
| send_payment_confirmation_email_job
    (to_email : string) (reference : option string) (amount : Z) (status : string).

Definition job_recipient (j : Job) : string :=
  match j with
  | send_booking_confirmation_email_job e _ => e
  | send_payment_confirmation_email_job e _ _ _ => e
  end.

(** What a [JsonResponse(data, status=code)] carries. *)
Record JsonResponse : Type := mkJsonResponse {
  content : Py.value;
  status_code : Z
}.

(** [request.GET]: the query parameters in the order they were written. *)
Record HttpRequest : Type := mkRequest { GET : list (string * string) }.

(** ** The world and its effects *)

Inductive Event : Type :=
| GatewayCalled (reference : option string)
| PaymentSaved (p : Payment.t)
| BookingSaved (b : Booking.t)
| Enqueued (j : Job)
| MailCalled (m : Mail)
| FileAppended (path text : string).

Record World : Type := mkWorld {
  payments : list Payment.t;     (* the Payment table, in primary-key order *)
  bookings : list Booking.t;     (* the Booking table, in primary-key order *)
  files : gmap string string;    (* file contents by path *)
  trace : list Event             (* every effect so far, oldest first *)
}.

Definition with_payments (tbl : list Payment.t) (w : World) : World :=
  {| payments := tbl; bookings := bookings w; files := files w; trace := trace w |}.
Definition with_bookings (tbl : list Booking.t) (w : World) : World :=
  {| payments := payments w; bookings := tbl; files := files w; trace := trace w |}.
Definition with_files (fs : gmap string string) (w : World) : World :=
  {| payments := payments w; bookings := bookings w; files := fs; trace := trace w |}.
Definition log_event (e : Event) (w : World) : World :=
  {| payments := payments w; bookings := bookings w; files := files w;
     trace := trace w ++ [e] |}.

(** The jobs on the queue, and the gateway calls made, read off the trace. *)
Definition enqueued (w : World) : list Job :=
  omap (fun e => match e with Enqueued j => Some j | _ => None end) (trace w).
Definition gateway_calls (w : World) : list (option string) :=
  omap (fun e => match e with GatewayCalled r => Some r | _ => None end) (trace w).
Definition mails (w : World) : list Mail :=
  omap (fun e => match e with MailCalled m => Some m | _ => None end) (trace w).

(** ** The monad of effectful Python code *)

Definition M (A : Type) : Type := World -> Result A * World.

Definition ret {A} (a : A) : M A := fun w => (Return a, w).
Definition raise {A} (e : Py.exn) : M A := fun w => (Raise e, w).
Definition bind {A B} (m : M A) (k : A -> M B) : M B :=
  fun w =>
    match m w with
    | (Return a, w') => k a w'
    | (Raise e, w') => (Raise e, w')
    end.
(** A pure computation that may raise. *)
Definition lift {A} (r : Result A) : M A := fun w => (r, w).
Definition effect (f : World -> World) : M unit := fun w => (Return tt, f w).

Declare Scope py_scope.
Delimit Scope py_scope with py.
Notation "'let!' x ':=' m 'in' k" := (bind m (fun x => k))
  (at level 10, x name, m at level 100, k at level 200) : py_scope.
Notation "m ';;;' k" := (bind m (fun _ => k))
  (at level 100, k at level 200, right associativity) : py_scope.
Open Scope py_scope.

(** ** The collaborators the view code calls *)

Module QueryDict.
(** [request.GET.get(key)]: [None] when the parameter is absent. *)
Definition get (q : list (string * string)) (key : string) : option string :=
  Py.items_get key q.
(** [request.GET.get(key, default)]. *)
Definition get_default (q : list (string * string)) (key dflt : string) : string :=
  default dflt (Py.items_get key q).
End QueryDict.

Module ORM.
(** [booking_reference=reference] as a row test.  The looked-up value is a
    Python value that may be [None]; an exact lookup on [None] compiles to
    [IS NULL], which no string-valued column satisfies. *)
Definition reference_matches (reference : option string) (p : Payment.t) : bool :=
  match reference with
  | Some r => String.eqb (Payment.booking_reference p) r
  | None => false
  end.

(** [Payment.objects.filter(booking_reference=reference).first()]. *)
Definition filter_first (reference : option string) (tbl : list Payment.t)
  : option Payment.t :=
  head (List.filter (reference_matches reference) tbl).

Definition same_pk (p r : Payment.t) : bool := Payment.id r =? Payment.id p.

(** What [payment.save()] does to the table: every column of the row with
    the instance's primary key is overwritten; an instance whose key is not
    in the table is inserted. *)
Definition save_row (p : Payment.t) (tbl : list Payment.t) : list Payment.t :=
  if existsb (same_pk p) tbl
  then map (fun r => if same_pk p r then p else r) tbl
  else tbl ++ [p].

Definition payment_filter_first (reference : option string) : M (option Payment.t) :=
  fun w => (Return (filter_first reference (payments w)), w).

Definition payment_save (p : Payment.t) : M unit :=
  effect (fun w => log_event (PaymentSaved p) (with_payments (save_row p (payments w)) w)).

(** Primary keys are unique in a table. *)
Definition pk_unique (tbl : list Payment.t) : Prop := NoDup (map Payment.id tbl).

(** The key an auto-increment column gives the next row. *)
Definition next_booking_id (tbl : list Booking.t) : Z :=
  1 + fold_right Z.max 0 (map Booking.id tbl).
End ORM.

(** [task.delay(args)]: put the call on the queue and return at once. *)
Definition delay (j : Job) : M unit := effect (log_event (Enqueued j)).

(** Modelled from the spec: [listings/serializers.py] is not part of the two
    files.  A validated [BookingSerializer] holds the customer of the booking
    to create; [serializer.save()] inserts the row, which gets its identifier
    from the table, and returns the saved instance. *)
Record BookingSerializer : Type := mkSerializer { validated_customer : Customer.t }.

Definition serializer_save (serializer : BookingSerializer) : M Booking.t :=
  fun w =>
    let booking := {| Booking.id := ORM.next_booking_id (bookings w);
                      Booking.customer := validated_customer serializer |} in
    (Return booking,
     log_event (BookingSaved booking) (with_bookings (bookings w ++ [booking]) w)).

(** ** listings/views.py *)

(** [BookingViewSet.perform_create(self, serializer)] *)
Definition perform_create (serializer : BookingSerializer) : M unit :=
  let! booking := serializer_save serializer in
  delay (send_booking_confirmation_email_job
           (Customer.email (Booking.customer booking)) (Booking.id booking)).

(** [response_data.get("data", {}).get("status", "failed")] *)
Definition extract_status (response_data : Py.value) : Result Py.value :=
  match Py.get response_data "data" (Py.Dict []) with
  | Return data => Py.get data "status" (Py.Str "failed")
  | Raise e => Raise e
  end.

(** ["Completed" if status == "success" else "Failed"] *)
Definition new_status (status : Py.value) : string :=
  if Py.eq_str status "success" then "Completed" else "Failed".

Definition not_found_response : JsonResponse :=
  {| content := Py.Dict [("error", Py.Str "Payment not found")]; status_code := 404 |}.

Definition status_response (status : string) : JsonResponse :=
  {| content := Py.Dict [("status", Py.Str status)]; status_code := 200 |}.

Section Views.

(** [utils.payment_gateway.verify_payment], whose code is not part of the
    two files: the value it returns for a reference. *)
Variable verify_payment : option string -> Py.value.

Definition call_verify_payment (reference : option string) : M Py.value :=
  fun w => (Return (verify_payment reference), log_event (GatewayCalled reference) w).

(** [verify_payment_view(request)] *)
Definition verify_payment_view (request : HttpRequest) : M JsonResponse :=
  let reference := QueryDict.get (GET request) "tx_ref" in
  let email := QueryDict.get_default (GET request) "email" "user@example.com" in
  let! payment := ORM.payment_filter_first reference in
  match payment with
  | None => ret not_found_response
  | Some payment =>
      let! response_data := call_verify_payment reference in
      let! status := lift (extract_status response_data) in
      let payment := Payment.set_status (new_status status) payment in
      ORM.payment_save payment ;;;
      delay (send_payment_confirmation_email_job
               email reference (Payment.amount payment) (Payment.status payment)) ;;;
      ret (status_response (Payment.status payment))
  end.

End Views.

(** ** listings/tasks.py *)

Definition booking_email_log : string := "/tmp/booking_email_log.txt".

(** The line feed an f-string's [\n] stands for. *)
Definition LF : string := String (Ascii.ascii_of_nat 10) "".

(** [with open(path, 'a') as f: f.write(text)]: the file is created when it
    is missing, and the text goes after what is there. *)
Definition append_file (path text : string) : M unit :=
  effect (fun w =>
    log_event (FileAppended path text)
      (with_files (<[path := default "" (files w !! path) +:+ text]> (files w)) w)).

Section Tasks.

(** [django.core.mail.send_mail]: for each message, whether the call returns
    (the number of messages delivered) or raises. *)
Variable send_mail : Mail -> Result Z.

(** The text of [datetime.now()] at the moment the log line is built. *)
Variable now : string.

Definition call_send_mail (m : Mail) : M Z :=
  fun w => (send_mail m, log_event (MailCalled m) w).

(** [send_booking_confirmation_email(to_email, booking_id)] *)
Definition send_booking_confirmation_email (to_email : string) (booking_id : Z)
  : M string :=
  let subject := "Booking Confirmation #" +:+ Py.str_int booking_id in
  let message :=
    "Your booking with ID " +:+ Py.str_int booking_id +:+ " has been confirmed!" in
  let from_email := "noreply@alxtravelapp.com" in
  call_send_mail (mkMail subject message from_email [to_email]) ;;;
  let log_message :=
    now +:+ " - Email sent to " +:+ to_email +:+ " for booking "
        +:+ Py.str_int booking_id +:+ LF in
  append_file "/tmp/booking_email_log.txt" log_message ;;;
  ret ("Email sent to " +:+ to_email).

(** The message and the log line of one invocation, by name. *)
Definition booking_mail (to_email : string) (booking_id : Z) : Mail :=
  {| subject := "Booking Confirmation #" +:+ Py.str_int booking_id;
     message := "Your booking with ID " +:+ Py.str_int booking_id +:+ " has been confirmed!";
     from_email := "noreply@alxtravelapp.com";
     recipient_list := [to_email] |}.

Definition booking_log_message (to_email : string) (booking_id : Z) : string :=
  now +:+ " - Email sent to " +:+ to_email +:+ " for booking "
      +:+ Py.str_int booking_id +:+ LF.

End Tasks.

(** ** Concrete runs *)

Definition empty_world : World :=
  {| payments := []; bookings := []; files := ∅; trace := [] |}.

Definition tx123_row : Payment.t :=
  {| Payment.id := 1; Payment.booking_reference := "TX123";
     Payment.status := "Pending"; Payment.amount := 100 |}.

Definition tx123_world : World := with_payments [tx123_row] empty_world.

Definition gateway_success : option string -> Py.value :=
  fun _ => Py.Dict [("data", Py.Dict [("status", Py.Str "success")])].

(** A gateway answer whose [data] entry is JSON [null]. *)
Definition gateway_null_data : option string -> Py.value :=
  fun _ => Py.Dict [("message", Py.Str "Invalid transaction or Transaction not found");
                    ("status", Py.Str "failed"); ("data", Py.None_)].

Definition mail_ok : Mail -> Result Z := fun _ => Return 1.
Definition mail_down : Mail -> Result Z :=
  fun _ => Raise (Py.SMTPException "Connection refused").

(** ** The spec's reading of the gateway answer *)

(** The nested [data.status] field of a gateway answer, when there is one. *)
Definition nested_status (response_data : Py.value) : option Py.value :=
  match response_data with
  | Py.Dict d =>
      match Py.items_get "data" d with
      | Some (Py.Dict data) => Py.items_get "status" data
      | _ => None
      end
  | _ => None
  end.

(** The status the spec extracts: the nested field, ["failed"] without it. *)
Definition gateway_status (response_data : Py.value) : Py.value :=
  default (Py.Str "failed") (nested_status response_data).

(** The answers over which the two [.get] calls go through: a dict whose
    ["data"] entry is missing or is itself a dict. *)
Definition dict_shaped (response_data : Py.value) : bool :=
  match response_data with
  | Py.Dict d =>
      match Py.items_get "data" d with
      | None | Some (Py.Dict _) => true
      | Some _ => false
      end
  | _ => false
  end.

(** The world a verification call leaves behind when it runs to its end. *)
Definition verified_world (reference : option string) (email : string)
    (p' : Payment.t) (w : World) : World :=
  {| payments := ORM.save_row p' (payments w);
     bookings := bookings w;
     files := files w;
     trace := trace w ++ [GatewayCalled reference; PaymentSaved p';
                          Enqueued (send_payment_confirmation_email_job
                                      email reference (Payment.amount p')
                                      (Payment.status p'))] |}.

(** The two values the view reads from the query string. *)
Definition request_reference (request : HttpRequest) : option string :=
  QueryDict.get (GET request) "tx_ref".
Definition request_email (request : HttpRequest) : string :=
  QueryDict.get_default (GET request) "email" "user@example.com".

(** The status of the row a lookup by [reference] returns, if any. *)
Definition payment_status_of (reference : option string) (w : World) : option string :=
  Payment.status <$> ORM.filter_first reference (payments w).

(** What stays of a row across a verification call that found the row [p]. *)
Definition row_kept (p r r' : Payment.t) : Prop :=
  Payment.id r' = Payment.id r
  /\ Payment.booking_reference r' = Payment.booking_reference r
  /\ Payment.amount r' = Payment.amount r
  /\ (r <> p -> r' = r).

(** ** Definitions for the whole-run properties *)

(** The Payment table a verification call for [reference] leaves behind, as
    a function of the table it finds. *)
Definition table_after (verify_payment : option string -> Py.value)
    (reference : option string) (tbl : list Payment.t) : list Payment.t :=
  match ORM.filter_first reference tbl with
  | Some p =>
      match extract_status (verify_payment reference) with
      | Return status => ORM.save_row (Payment.set_status (new_status status) p) tbl
      | Raise _ => tbl
      end
  | None => tbl
  end.

Definition is_gateway_call (e : Event) : bool :=
  match e with GatewayCalled _ => true | _ => false end.

(** What a worker does with a queued call: it calls the task with the queued
    arguments.  The body of the payment task is not in [tasks.py], so only
    calls of the booking task can be run. *)
Definition run_job (send_mail : Mail -> Result Z) (now : string) (j : Job)
  : option (M string) :=
  match j with
  | send_booking_confirmation_email_job to_email booking_id =>
      Some (send_booking_confirmation_email send_mail now to_email booking_id)
  | send_payment_confirmation_email_job _ _ _ _ => None
  end.

Definition tx456_row : Payment.t :=
  {| Payment.id := 2; Payment.booking_reference := "TX456";
     Payment.status := "Pending"; Payment.amount := 250 |}.

Definition two_row_world : World := with_payments [tx123_row; tx456_row] empty_world.

(** A gateway that reports success for TX123 and a pending charge otherwise. *)
Definition gateway_by_reference : option string -> Py.value :=
  fun reference =>
    match reference with
    | Some r =>
        if String.eqb r "TX123"
        then Py.Dict [("data", Py.Dict [("status", Py.Str "success")])]
        else Py.Dict [("data", Py.Dict [("status", Py.Str "pending")])]
    | None => Py.Dict []
    end.

(** ** Runs on concrete inputs *)

Example run_tx123 :
  verify_payment_view gateway_success (mkRequest [("tx_ref", "TX123")]) tx123_world
  = (Return (status_response "Completed"),
     {| payments := [Payment.set_status "Completed" tx123_row];
        bookings := []; files := ∅;
        trace := [GatewayCalled (Some "TX123");
                  PaymentSaved (Payment.set_status "Completed" tx123_row);
                  Enqueued (send_payment_confirmation_email_job
                              "user@example.com" (Some "TX123") 100 "Completed")] |}).
Proof. reflexivity. Qed.

Example run_txmissing :
  verify_payment_view gateway_success (mkRequest [("tx_ref", "TXMISSING")]) tx123_world
  = (Return not_found_response, tx123_world).
Proof. reflexivity. Qed.

Example run_null_data :
  verify_payment_view gateway_null_data (mkRequest [("tx_ref", "TX123")]) tx123_world
  = (Raise (Py.AttributeError "get"), log_event (GatewayCalled (Some "TX123")) tx123_world).
Proof. reflexivity. Qed.

Example run_task :
  let run := send_booking_confirmation_email mail_ok "2026-01-02 03:04:05.000006"
               "a@b.c" 7 empty_world in
  fst run = Return "Email sent to a@b.c"
  /\ mails (snd run)
     = [{| subject := "Booking Confirmation #7";
           message := "Your booking with ID 7 has been confirmed!";
           from_email := "noreply@alxtravelapp.com";
           recipient_list := ["a@b.c"] |}]
  /\ files (snd run) !! "/tmp/booking_email_log.txt"
     = Some ("2026-01-02 03:04:05.000006 - Email sent to a@b.c for booking 7" +:+ LF).
Proof. repeat split; vm_compute; reflexivity. Qed.

Example run_perform_create :
  perform_create (mkSerializer (Customer.mk "a@b.c")) empty_world
  = (Return tt,
     {| payments := [];
        bookings := [Booking.mk 1 (Customer.mk "a@b.c")];
        files := ∅;
        trace := [BookingSaved (Booking.mk 1 (Customer.mk "a@b.c"));
                  Enqueued (send_booking_confirmation_email_job "a@b.c" 1)] |}).
Proof. reflexivity. Qed.

(** ** Facts about the collaborators' models *)

Lemma eq_str_true (v : Py.value) (s : string) :
  Py.eq_str v s = true <-> v = Py.Str s.
Proof.
  destruct v; simpl; try (split; [discriminate | intros H; discriminate H]).
  rewrite String.eqb_eq. split; [intros -> | intros [= ->]]; reflexivity.
Qed.

Lemma same_pk_refl (p : Payment.t) : ORM.same_pk p p = true.
Proof. apply Z.eqb_refl. Qed.

Lemma same_pk_set_status (s : string) (p r : Payment.t) :
  ORM.same_pk (Payment.set_status s p) r = ORM.same_pk p r.
Proof. reflexivity. Qed.

Lemma reference_matches_set_status (reference : option string) s p :
  ORM.reference_matches reference (Payment.set_status s p)
  = ORM.reference_matches reference p.
Proof. reflexivity. Qed.

Lemma set_status_twice (s : string) (p : Payment.t) :
  Payment.set_status s (Payment.set_status s p) = Payment.set_status s p.
Proof. reflexivity. Qed.

(** The row [first()] returns is in the table and passes the filter. *)
Lemma filter_first_Some reference tbl p :
  ORM.filter_first reference tbl = Some p ->
  In p tbl /\ ORM.reference_matches reference p = true.
Proof.
  unfold ORM.filter_first.
  induction tbl as [|r tbl IH]; simpl; [discriminate|].
  destruct (ORM.reference_matches reference r) eqn:Hr; simpl.
  - intros [= ->]. auto.
  - intros H. destruct (IH H). auto.
Qed.

(** Saving an instance read from the table rewrites rows in place. *)
Lemma save_row_present p q tbl :
  In p tbl -> Payment.id q = Payment.id p ->
  ORM.save_row q tbl = map (fun r => if ORM.same_pk q r then q else r) tbl.
Proof.
  intros Hin Hid. unfold ORM.save_row.
  replace (existsb (ORM.same_pk q) tbl) with true; [reflexivity|].
  symmetry. apply existsb_exists. exists p. split; [assumption|].
  unfold ORM.same_pk. rewrite Hid. apply Z.eqb_refl.
Qed.

Lemma save_row_length p q tbl :
  In p tbl -> Payment.id q = Payment.id p ->
  length (ORM.save_row q tbl) = length tbl.
Proof. intros Hin Hid. rewrite (save_row_present p q tbl Hin Hid). apply length_map. Qed.

(** After the save, the same lookup returns the saved instance. *)
Lemma filter_first_save_row reference s p tbl :
  ORM.filter_first reference tbl = Some p ->
  ORM.filter_first reference (ORM.save_row (Payment.set_status s p) tbl)
  = Some (Payment.set_status s p).
Proof.
  intros Hfirst.
  destruct (filter_first_Some _ _ _ Hfirst) as [Hin Hmatch].
  rewrite (save_row_present p (Payment.set_status s p) tbl Hin eq_refl).
  clear Hin. revert Hfirst. unfold ORM.filter_first.
  induction tbl as [|r tbl IH]; simpl; [discriminate|].
  rewrite same_pk_set_status.
  destruct (ORM.reference_matches reference r) eqn:Hr; simpl.
  - intros [= ->]. rewrite same_pk_refl, reference_matches_set_status, Hmatch.
    reflexivity.
  - intros H. destruct (ORM.same_pk p r).
    + rewrite reference_matches_set_status, Hmatch. reflexivity.
    + rewrite Hr. apply IH, H.
Qed.

(** Saving the same instance again leaves the table as it is. *)
Lemma save_row_idem q tbl :
  ORM.save_row q (ORM.save_row q tbl) = ORM.save_row q tbl.
Proof.
  set (f := fun r => if ORM.same_pk q r then q else r).
  destruct (existsb (ORM.same_pk q) tbl) eqn:Hex.
  - assert (Hsave : ORM.save_row q tbl = map f tbl)
      by (unfold ORM.save_row; rewrite Hex; reflexivity).
    rewrite Hsave.
    apply existsb_exists in Hex as (r & Hin & Hr).
    assert (Hq : In q (map f tbl)).
    { apply in_map_iff. exists r. split; [|assumption]. unfold f. rewrite Hr. reflexivity. }
    rewrite (save_row_present q q _ Hq eq_refl). fold f.
    rewrite map_map. apply map_ext. intros a. unfold f.
    destruct (ORM.same_pk q a) eqn:Ha; [rewrite same_pk_refl | rewrite Ha]; reflexivity.
  - assert (Hsave : ORM.save_row q tbl = (tbl ++ [q])%list)
      by (unfold ORM.save_row; rewrite Hex; reflexivity).
    rewrite Hsave.
    assert (Hq : In q ((tbl ++ [q])%list)) by (apply in_or_app; right; left; reflexivity).
    rewrite (save_row_present q q _ Hq eq_refl), map_app. simpl.
    rewrite same_pk_refl. f_equal.
    rewrite <- (map_id tbl) at 2. apply map_ext_in. intros a Ha.
    destruct (ORM.same_pk q a) eqn:Hqa; [|reflexivity].
    assert (existsb (ORM.same_pk q) tbl = true) as Hc
      by (apply existsb_exists; exists a; auto).
    congruence.
Qed.

(** With unique primary keys, two rows of a table with one key are one row. *)
Lemma pk_unique_inj tbl r p :
  ORM.pk_unique tbl -> In r tbl -> In p tbl ->
  Payment.id r = Payment.id p -> r = p.
Proof.
  unfold ORM.pk_unique.
  induction tbl as [|a tbl IH]; simpl; [contradiction|].
  intros Hnd Hr Hp Hid. apply NoDup_cons in Hnd as [Hnotin Hnd].
  destruct Hr as [-> | Hr], Hp as [-> | Hp]; auto.
  - exfalso. apply Hnotin. rewrite Hid. apply list_elem_of_In, in_map, Hp.
  - exfalso. apply Hnotin. rewrite <- Hid. apply list_elem_of_In, in_map, Hr.
Qed.

(** ** How a verification call runs *)

Lemma extract_status_dict_shaped (r : Py.value) :
  dict_shaped r = true -> extract_status r = Return (gateway_status r).
Proof.
  unfold dict_shaped, extract_status, gateway_status, nested_status.
  destruct r as [| | | | |d]; try discriminate. simpl.
  destruct (Py.items_get "data" d) as [[| | | | |data]|]; try discriminate;
    reflexivity.
Qed.

Lemma extract_status_not_dict_shaped (r : Py.value) :
  dict_shaped r = false -> extract_status r = Raise (Py.AttributeError "get").
Proof.
  unfold dict_shaped, extract_status.
  destruct r as [| | | | |d]; try reflexivity. simpl.
  destruct (Py.items_get "data" d) as [[| | | | |data]|]; try discriminate;
    reflexivity.
Qed.

Section ViewRuns.

Variable verify_payment : option string -> Py.value.
Variable request : HttpRequest.
Variable w : World.

Lemma view_not_found :
  ORM.filter_first (request_reference request) (payments w) = None ->
  verify_payment_view verify_payment request w = (Return not_found_response, w).
Proof.
  intros Hnone. unfold verify_payment_view, bind, ORM.payment_filter_first.
  fold (request_reference request). rewrite Hnone. reflexivity.
Qed.

Lemma view_raises (p : Payment.t) (e : Py.exn) :
  ORM.filter_first (request_reference request) (payments w) = Some p ->
  extract_status (verify_payment (request_reference request)) = Raise e ->
  verify_payment_view verify_payment request w
  = (Raise e, log_event (GatewayCalled (request_reference request)) w).
Proof.
  intros Hsome Hex.
  unfold verify_payment_view, bind, ORM.payment_filter_first, call_verify_payment, lift.
  fold (request_reference request). rewrite Hsome, Hex. reflexivity.
Qed.

Lemma view_found (p : Payment.t) (s : Py.value) :
  ORM.filter_first (request_reference request) (payments w) = Some p ->
  extract_status (verify_payment (request_reference request)) = Return s ->
  verify_payment_view verify_payment request w
  = (Return (status_response (new_status s)),
     verified_world (request_reference request) (request_email request)
       (Payment.set_status (new_status s) p) w).
Proof.
  intros Hsome Hex.
  unfold verify_payment_view, bind, ORM.payment_filter_first, call_verify_payment, lift.
  fold (request_reference request). rewrite Hsome, Hex.
  unfold verified_world, ORM.payment_save, delay, effect, ret, log_event, with_payments.
  simpl. rewrite <- !app_assoc. reflexivity.
Qed.

End ViewRuns.

Lemma enqueued_verified_world reference email p' w :
  enqueued (verified_world reference email p' w)
  = (enqueued w
     ++ [send_payment_confirmation_email_job
           email reference (Payment.amount p') (Payment.status p')])%list.
Proof. unfold enqueued, verified_world. simpl. rewrite omap_app. reflexivity. Qed.

Lemma enqueued_log_gateway reference w :
  enqueued (log_event (GatewayCalled reference) w) = enqueued w.
Proof.
  unfold enqueued, log_event. simpl. rewrite omap_app. simpl. apply app_nil_r.
Qed.

Lemma new_status_Completed (s : Py.value) :
  new_status s = "Completed" <-> s = Py.Str "success".
Proof.
  unfold new_status. rewrite <- eq_str_true.
  destruct (Py.eq_str s "success"); split; intros H; try reflexivity; discriminate H.
Qed.

Lemma new_status_Failed (s : Py.value) :
  new_status s = "Failed" <-> s <> Py.Str "success".
Proof.
  rewrite <- new_status_Completed. unfold new_status.
  destruct (Py.eq_str s "success"); split; intros H; try reflexivity;
    try discriminate H; try (intros H'; discriminate H').
  exfalso. apply H. reflexivity.
Qed.

(** ** Payment verification: the status outcome *)

(** C1 (the code at the failing input): the reference matches the row TX123
    and the gateway answers with a dict whose ["data"] entry is [null], so
    there is no [data.status] field and the outcome should be ["Failed"].
    The default [{}] only covers a missing ["data"] key: here the second
    [.get] is called on [None] and the view raises [AttributeError].  The
    row keeps the status ["Pending"], nothing is saved and no JSON response
    is produced. *)
Lemma verify_null_data_no_outcome :
  let run := verify_payment_view gateway_null_data
               (mkRequest [("tx_ref", "TX123")]) tx123_world in
  ORM.filter_first (Some "TX123") (payments tx123_world) = Some tx123_row
  /\ nested_status (gateway_null_data (Some "TX123")) = None
  /\ fst run = Raise (Py.AttributeError "get")
  /\ fst run <> Return (status_response "Failed")
  /\ payment_status_of (Some "TX123") (snd run) = Some "Pending"
  /\ ~ In (PaymentSaved (Payment.set_status "Failed" tx123_row)) (trace (snd run)).
Proof.
  cbv zeta. rewrite run_null_data. simpl.
  repeat split; try reflexivity; try discriminate.
  intros [H | []]. discriminate H.
Qed.

(** X1, the status outcome over dict-shaped answers: for every verification
    request whose reference matches a Payment row and whose gateway answer is
    a dict with a ["data"] entry that is missing or is itself a dict, the
    extracted status (the nested [data.status] field, ["failed"] when it is
    missing at either level) decides the outcome: the row's status becomes
    ["Completed"] exactly when the extracted status is the string
    ["success"] and ["Failed"] in every other case, the row is saved whether
    or not its status changed, and the response is the JSON object with the
    one key ["status"] holding the new status. *)
Theorem verify_status_outcome
    (verify_payment : option string -> Py.value) (request : HttpRequest)
    (w : World) (p : Payment.t) :
  ORM.filter_first (request_reference request) (payments w) = Some p ->
  dict_shaped (verify_payment (request_reference request)) = true ->
  exists st : string,
    (st = "Completed"
       <-> gateway_status (verify_payment (request_reference request))
           = Py.Str "success")
    /\ (st = "Failed"
       <-> gateway_status (verify_payment (request_reference request))
           <> Py.Str "success")
    /\ fst (verify_payment_view verify_payment request w)
       = Return {| content := Py.Dict [("status", Py.Str st)]; status_code := 200 |}
    /\ payment_status_of (request_reference request)
         (snd (verify_payment_view verify_payment request w)) = Some st
    /\ payments (snd (verify_payment_view verify_payment request w))
       = ORM.save_row (Payment.set_status st p) (payments w)
    /\ In (PaymentSaved (Payment.set_status st p))
          (trace (snd (verify_payment_view verify_payment request w))).
Proof.
  intros Hfound Hshape.
  exists (new_status (gateway_status (verify_payment (request_reference request)))).
  rewrite (view_found verify_payment request w p _ Hfound
             (extract_status_dict_shaped _ Hshape)).
  split; [apply new_status_Completed|].
  split; [apply new_status_Failed|].
  split; [reflexivity|].
  split.
  - unfold payment_status_of. simpl.
    fold (request_reference request).
    rewrite (filter_first_save_row _ _ _ _ Hfound). reflexivity.
  - split; [reflexivity|]. simpl.
    apply in_or_app. right. right. left. reflexivity.
Qed.

Lemma verify_status_outcome_witness :
  ORM.filter_first (request_reference (mkRequest [("tx_ref", "TX123")]))
    (payments tx123_world) = Some tx123_row
  /\ dict_shaped (gateway_success (request_reference (mkRequest [("tx_ref", "TX123")])))
     = true
  /\ exists st : string,
       (st = "Completed"
          <-> gateway_status
                (gateway_success (request_reference (mkRequest [("tx_ref", "TX123")])))
              = Py.Str "success")
       /\ (st = "Failed"
          <-> gateway_status
                (gateway_success (request_reference (mkRequest [("tx_ref", "TX123")])))
              <> Py.Str "success")
       /\ fst (verify_payment_view gateway_success (mkRequest [("tx_ref", "TX123")])
                 tx123_world)
          = Return {| content := Py.Dict [("status", Py.Str st)]; status_code := 200 |}
       /\ payment_status_of (request_reference (mkRequest [("tx_ref", "TX123")]))
            (snd (verify_payment_view gateway_success
                    (mkRequest [("tx_ref", "TX123")]) tx123_world)) = Some st
       /\ payments (snd (verify_payment_view gateway_success
                           (mkRequest [("tx_ref", "TX123")]) tx123_world))
          = ORM.save_row (Payment.set_status st tx123_row) (payments tx123_world)
       /\ In (PaymentSaved (Payment.set_status st tx123_row))
             (trace (snd (verify_payment_view gateway_success
                            (mkRequest [("tx_ref", "TX123")]) tx123_world))).
Proof.
  split; [reflexivity|]. split; [reflexivity|].
  apply (verify_status_outcome gateway_success (mkRequest [("tx_ref", "TX123")])
           tx123_world tx123_row); reflexivity.
Defined.

(** ** Payment verification: unknown reference *)

(** C2: for every verification request whose reference matches no Payment
    row, the response is a 404 whose body is exactly the JSON object with
    the one key ["error"] holding ["Payment not found"]; no Payment row is
    changed, the gateway is not called and no job is enqueued: the world is
    left as it was. *)
Theorem verify_unknown_reference
    (verify_payment : option string -> Py.value) (request : HttpRequest) (w : World) :
  ORM.filter_first (request_reference request) (payments w) = None ->
  fst (verify_payment_view verify_payment request w)
  = Return {| content := Py.Dict [("error", Py.Str "Payment not found")];
              status_code := 404 |}
  /\ payments (snd (verify_payment_view verify_payment request w)) = payments w
  /\ gateway_calls (snd (verify_payment_view verify_payment request w))
     = gateway_calls w
  /\ enqueued (snd (verify_payment_view verify_payment request w)) = enqueued w
  /\ snd (verify_payment_view verify_payment request w) = w.
Proof.
  intros Hnone.
  rewrite (view_not_found verify_payment request w Hnone). simpl.
  repeat split; reflexivity.
Qed.

Lemma verify_unknown_reference_witness :
  ORM.filter_first (request_reference (mkRequest [("tx_ref", "TXMISSING")]))
    (payments tx123_world) = None
  /\ fst (verify_payment_view gateway_success (mkRequest [("tx_ref", "TXMISSING")])
            tx123_world)
     = Return {| content := Py.Dict [("error", Py.Str "Payment not found")];
                 status_code := 404 |}
  /\ snd (verify_payment_view gateway_success (mkRequest [("tx_ref", "TXMISSING")])
            tx123_world) = tx123_world.
Proof.
  split; [reflexivity|].
  destruct (verify_unknown_reference gateway_success
              (mkRequest [("tx_ref", "TXMISSING")]) tx123_world eq_refl)
    as (Hr & _ & _ & _ & Hw).
  split; assumption.
Defined.

(** ** Payment verification: the confirmation job *)

(** C3, where the claim fails: a request whose reference matches no row ends
    with the 404 response and puts no job on the queue, so "exactly one job
    after any verification call" does not hold for every request. *)
Lemma verify_unknown_reference_enqueues_nothing :
  let run := verify_payment_view gateway_success
               (mkRequest [("tx_ref", "TXMISSING")]) tx123_world in
  fst run = Return not_found_response
  /\ enqueued (snd run) = []
  /\ ~ exists j : Job, enqueued (snd run) = (enqueued tx123_world ++ [j])%list.
Proof.
  cbv zeta. rewrite run_txmissing. simpl.
  repeat split; try reflexivity.
  intros [j Hj]. discriminate Hj.
Qed.

(** C3, amended: after every verification call whose reference matches a
    Payment row and whose gateway answer is a dict with a ["data"] entry that
    is missing or is itself a dict, exactly one payment-confirmation job has
    been added to the queue; its payload is the request's email, the tx_ref,
    and the amount and the final status of the persisted Payment row, and
    the status in the JSON response equals the status in that payload. *)
Theorem verify_enqueues_one_job
    (verify_payment : option string -> Py.value) (request : HttpRequest)
    (w : World) (p : Payment.t) :
  ORM.filter_first (request_reference request) (payments w) = Some p ->
  dict_shaped (verify_payment (request_reference request)) = true ->
  exists persisted : Payment.t,
    ORM.filter_first (request_reference request)
      (payments (snd (verify_payment_view verify_payment request w)))
    = Some persisted
    /\ Payment.amount persisted = Payment.amount p
    /\ enqueued (snd (verify_payment_view verify_payment request w))
       = (enqueued w
          ++ [send_payment_confirmation_email_job
                (request_email request) (request_reference request)
                (Payment.amount persisted) (Payment.status persisted)])%list
    /\ fst (verify_payment_view verify_payment request w)
       = Return {| content := Py.Dict [("status", Py.Str (Payment.status persisted))];
                   status_code := 200 |}.
Proof.
  intros Hfound Hshape.
  rewrite (view_found verify_payment request w p _ Hfound
             (extract_status_dict_shaped _ Hshape)).
  eexists. split.
  - simpl. fold (request_reference request).
    apply (filter_first_save_row _ _ _ _ Hfound).
  - split; [reflexivity|]. split; [|reflexivity].
    apply enqueued_verified_world.
Qed.

Lemma verify_enqueues_one_job_witness :
  ORM.filter_first (request_reference (mkRequest [("tx_ref", "TX123"); ("email", "a@b.c")]))
    (payments tx123_world) = Some tx123_row
  /\ dict_shaped (gateway_success
                   (request_reference (mkRequest [("tx_ref", "TX123"); ("email", "a@b.c")])))
     = true
  /\ exists persisted : Payment.t,
       ORM.filter_first
         (request_reference (mkRequest [("tx_ref", "TX123"); ("email", "a@b.c")]))
         (payments (snd (verify_payment_view gateway_success
                           (mkRequest [("tx_ref", "TX123"); ("email", "a@b.c")])
                           tx123_world)))
       = Some persisted
       /\ Payment.amount persisted = Payment.amount tx123_row
       /\ enqueued (snd (verify_payment_view gateway_success
                           (mkRequest [("tx_ref", "TX123"); ("email", "a@b.c")])
                           tx123_world))
          = (enqueued tx123_world
             ++ [send_payment_confirmation_email_job
                   (request_email (mkRequest [("tx_ref", "TX123"); ("email", "a@b.c")]))
                   (request_reference (mkRequest [("tx_ref", "TX123"); ("email", "a@b.c")]))
                   (Payment.amount persisted) (Payment.status persisted)])%list
       /\ fst (verify_payment_view gateway_success
                 (mkRequest [("tx_ref", "TX123"); ("email", "a@b.c")]) tx123_world)
          = Return {| content := Py.Dict [("status", Py.Str (Payment.status persisted))];
                      status_code := 200 |}.
Proof.
  split; [reflexivity|]. split; [reflexivity|].
  apply (verify_enqueues_one_job gateway_success
           (mkRequest [("tx_ref", "TX123"); ("email", "a@b.c")]) tx123_world tx123_row);
    reflexivity.
Defined.

(** ** Payment verification: calling twice *)

(** C4 (the code at the failing input): the reference matches the row TX123
    and the gateway gives the same answer both times, a dict whose ["data"]
    entry is [null].  The status is the same after both calls, but each call
    raises [AttributeError] where the row should have become ["Failed"]
    without an error: the second call is a failure, as the first one was. *)
Lemma verify_twice_null_data_raises :
  let request := mkRequest [("tx_ref", "TX123")] in
  let first := verify_payment_view gateway_null_data request tx123_world in
  let second := verify_payment_view gateway_null_data request (snd first) in
  payment_status_of (Some "TX123") (snd first) = Some "Pending"
  /\ payment_status_of (Some "TX123") (snd second) = Some "Pending"
  /\ fst first = Raise (Py.AttributeError "get")
  /\ fst second = Raise (Py.AttributeError "get")
  /\ Py.is_raise (fst second) = true.
Proof. repeat split; reflexivity. Qed.

(** X2, repeating a verification: calling the view twice in succession on the
    same reference, with the gateway returning the same answer both times,
    leaves the Payment table, and so the Payment's status, after the second
    call as it was after the first call, and the second call ends the way
    the first one did; when the gateway answer is a dict with a ["data"]
    entry that is missing or is itself a dict, neither call raises an
    error. *)
Theorem verify_twice_stable
    (gateway1 gateway2 : option string -> Py.value) (request : HttpRequest) (w : World) :
  gateway1 (request_reference request) = gateway2 (request_reference request) ->
  payments (snd (verify_payment_view gateway2 request
                   (snd (verify_payment_view gateway1 request w))))
  = payments (snd (verify_payment_view gateway1 request w))
  /\ payment_status_of (request_reference request)
       (snd (verify_payment_view gateway2 request
               (snd (verify_payment_view gateway1 request w))))
     = payment_status_of (request_reference request)
         (snd (verify_payment_view gateway1 request w))
  /\ fst (verify_payment_view gateway2 request
            (snd (verify_payment_view gateway1 request w)))
     = fst (verify_payment_view gateway1 request w)
  /\ (dict_shaped (gateway1 (request_reference request)) = true ->
      Py.is_raise (fst (verify_payment_view gateway1 request w)) = false
      /\ Py.is_raise (fst (verify_payment_view gateway2 request
                             (snd (verify_payment_view gateway1 request w)))) = false).
Proof.
  intros Hsame.
  assert (Hgoal :
    payments (snd (verify_payment_view gateway2 request
                     (snd (verify_payment_view gateway1 request w))))
    = payments (snd (verify_payment_view gateway1 request w))
    /\ fst (verify_payment_view gateway2 request
              (snd (verify_payment_view gateway1 request w)))
       = fst (verify_payment_view gateway1 request w)
    /\ (dict_shaped (gateway1 (request_reference request)) = true ->
        Py.is_raise (fst (verify_payment_view gateway1 request w)) = false)).
  { destruct (ORM.filter_first (request_reference request) (payments w))
      as [p|] eqn:Hfirst.
    - destruct (dict_shaped (gateway1 (request_reference request))) eqn:Hshape.
      + pose proof (extract_status_dict_shaped _ Hshape) as Hex1.
        assert (Hex2 := Hex1). rewrite Hsame in Hex2 at 1.
        rewrite (view_found gateway1 request w p _ Hfirst Hex1). simpl.
        set (p' := Payment.set_status _ p).
        set (w1 := verified_world _ _ p' w).
        assert (Hfirst1 : ORM.filter_first (request_reference request) (payments w1)
                          = Some p')
          by apply (filter_first_save_row _ _ _ _ Hfirst).
        rewrite (view_found gateway2 request w1 p' _ Hfirst1 Hex2).
        cbn [fst snd]. unfold p' at 1. rewrite set_status_twice. fold p'.
        unfold w1. cbn [payments verified_world]. rewrite save_row_idem. auto.
      + pose proof (extract_status_not_dict_shaped _ Hshape) as Hex1.
        assert (Hex2 := Hex1). rewrite Hsame in Hex2.
        rewrite (view_raises gateway1 request w p _ Hfirst Hex1). cbn [fst snd].
        rewrite (view_raises gateway2 request
                   (log_event (GatewayCalled (request_reference request)) w)
                   p _ Hfirst Hex2).
        cbn [fst snd].
        split; [reflexivity|]. split; [reflexivity|]. discriminate.
    - rewrite (view_not_found gateway1 request w Hfirst). cbn [fst snd].
      rewrite (view_not_found gateway2 request w Hfirst). cbn [fst snd]. auto. }
  destruct Hgoal as (Hp & Hr & Hok).
  split; [exact Hp|]. split.
  - unfold payment_status_of. rewrite Hp. reflexivity.
  - split; [exact Hr|]. intros Hshape. rewrite Hr. auto.
Qed.

Lemma verify_twice_stable_witness :
  gateway_success (request_reference (mkRequest [("tx_ref", "TX123")]))
  = gateway_success (request_reference (mkRequest [("tx_ref", "TX123")]))
  /\ payment_status_of (request_reference (mkRequest [("tx_ref", "TX123")]))
       (snd (verify_payment_view gateway_success (mkRequest [("tx_ref", "TX123")])
               (snd (verify_payment_view gateway_success
                       (mkRequest [("tx_ref", "TX123")]) tx123_world))))
     = payment_status_of (request_reference (mkRequest [("tx_ref", "TX123")]))
         (snd (verify_payment_view gateway_success
                 (mkRequest [("tx_ref", "TX123")]) tx123_world))
  /\ fst (verify_payment_view gateway_success (mkRequest [("tx_ref", "TX123")])
            (snd (verify_payment_view gateway_success
                    (mkRequest [("tx_ref", "TX123")]) tx123_world)))
     = fst (verify_payment_view gateway_success
              (mkRequest [("tx_ref", "TX123")]) tx123_world).
Proof.
  split; [reflexivity|].
  destruct (verify_twice_stable gateway_success gateway_success
              (mkRequest [("tx_ref", "TX123")]) tx123_world eq_refl)
    as (_ & Hs & Hr & _).
  split; assumption.
Defined.

(** ** Booking creation *)

(** C5: every booking creation saves one Booking row and then enqueues
    exactly one booking-confirmation job, whose arguments are the created
    booking's customer email and the created booking's id; the save comes
    first in the trace, and nothing else in the world changes. *)
Theorem perform_create_enqueues_once (serializer : BookingSerializer) (w : World) :
  exists booking : Booking.t,
    fst (perform_create serializer w) = Return tt
    /\ Booking.customer booking = validated_customer serializer
    /\ bookings (snd (perform_create serializer w)) = (bookings w ++ [booking])%list
    /\ enqueued (snd (perform_create serializer w))
       = (enqueued w
          ++ [send_booking_confirmation_email_job
                (Customer.email (Booking.customer booking)) (Booking.id booking)])%list
    /\ trace (snd (perform_create serializer w))
       = (trace w
          ++ [BookingSaved booking;
              Enqueued (send_booking_confirmation_email_job
                          (Customer.email (Booking.customer booking))
                          (Booking.id booking))])%list
    /\ payments (snd (perform_create serializer w)) = payments w
    /\ files (snd (perform_create serializer w)) = files w.
Proof.
  exists {| Booking.id := ORM.next_booking_id (bookings w);
            Booking.customer := validated_customer serializer |}.
  unfold perform_create, bind, serializer_save, delay, effect. cbn [fst snd].
  split; [reflexivity|]. split; [reflexivity|]. split; [reflexivity|].
  split.
  - unfold enqueued, log_event, with_bookings. cbn [trace].
    rewrite <- app_assoc, omap_app. reflexivity.
  - split; [|split; reflexivity].
    unfold log_event, with_bookings. cbn [trace]. rewrite <- app_assoc. reflexivity.
Qed.

(** ** Payment verification: the query parameters *)

Lemma filter_first_no_reference (tbl : list Payment.t) :
  ORM.filter_first None tbl = None.
Proof. unfold ORM.filter_first. induction tbl; simpl; auto. Qed.

(** C7: for every verification request without an [email] query parameter
    the recipient the view works with is ["user@example.com"], and every job
    the call puts on the queue (there is at most one) has that recipient.
    In the scenario of the spec (reference ["TX123"], a row with that
    reference, status ["Pending"] and amount 100, a gateway answering with
    status ["success"] under ["data"]) the row becomes ["Completed"], the
    response carries ["Completed"], and the one job enqueued is
    (["user@example.com"], ["TX123"], 100, ["Completed"]). *)
Theorem verify_default_email :
  (forall (verify_payment : option string -> Py.value) (request : HttpRequest)
          (w : World),
      QueryDict.get (GET request) "email" = None ->
      request_email request = "user@example.com"
      /\ exists jobs : list Job,
           enqueued (snd (verify_payment_view verify_payment request w))
           = (enqueued w ++ jobs)%list
           /\ (length jobs <= 1)%nat
           /\ Forall (fun j => job_recipient j = "user@example.com") jobs)
  /\ (forall pk : Z,
        let row := Payment.mk pk "TX123" "Pending" 100 in
        let run := verify_payment_view gateway_success
                     (mkRequest [("tx_ref", "TX123")])
                     (with_payments [row] empty_world) in
        fst run = Return {| content := Py.Dict [("status", Py.Str "Completed")];
                            status_code := 200 |}
        /\ payments (snd run) = [Payment.mk pk "TX123" "Completed" 100]
        /\ enqueued (snd run)
           = [send_payment_confirmation_email_job
                "user@example.com" (Some "TX123") 100 "Completed"]).
Proof.
  split.
  - intros verify_payment request w Hemail.
    assert (Hdefault : request_email request = "user@example.com").
    { unfold request_email, QueryDict.get_default.
      unfold QueryDict.get in Hemail. rewrite Hemail. reflexivity. }
    split; [exact Hdefault|].
    destruct (ORM.filter_first (request_reference request) (payments w))
      as [p|] eqn:Hfirst.
    + destruct (dict_shaped (verify_payment (request_reference request))) eqn:Hshape.
      * rewrite (view_found verify_payment request w p _ Hfirst
                   (extract_status_dict_shaped _ Hshape)).
        cbn [snd]. rewrite enqueued_verified_world.
        eexists. split; [reflexivity|]. split; [simpl; lia|].
        constructor; [|constructor]. exact Hdefault.
      * rewrite (view_raises verify_payment request w p _ Hfirst
                   (extract_status_not_dict_shaped _ Hshape)).
        cbn [snd]. rewrite enqueued_log_gateway.
        exists []. rewrite app_nil_r. split; [reflexivity|].
        split; [simpl; lia | constructor].
    + rewrite (view_not_found verify_payment request w Hfirst). cbn [snd].
      exists []. rewrite app_nil_r. split; [reflexivity|].
      split; [simpl; lia | constructor].
  - intros pk row run.
    assert (Hrun : run
      = (Return (status_response "Completed"),
         verified_world (Some "TX123") "user@example.com"
           (Payment.set_status "Completed" row) (with_payments [row] empty_world))).
    { apply (view_found gateway_success (mkRequest [("tx_ref", "TX123")])
               (with_payments [row] empty_world) row (Py.Str "success"));
        reflexivity. }
    rewrite Hrun. cbn [fst snd]. split; [reflexivity|]. split.
    + cbn [payments verified_world with_payments]. unfold ORM.save_row.
      cbn [existsb map]. rewrite same_pk_set_status, same_pk_refl. reflexivity.
    + rewrite enqueued_verified_world. reflexivity.
Qed.

Lemma verify_default_email_witness :
  QueryDict.get (GET (mkRequest [("tx_ref", "TX123")])) "email" = None
  /\ request_email (mkRequest [("tx_ref", "TX123")]) = "user@example.com"
  /\ exists jobs : list Job,
       enqueued (snd (verify_payment_view gateway_success
                        (mkRequest [("tx_ref", "TX123")]) tx123_world))
       = (enqueued tx123_world ++ jobs)%list
       /\ (length jobs <= 1)%nat
       /\ Forall (fun j => job_recipient j = "user@example.com") jobs.
Proof.
  split; [reflexivity|].
  apply (proj1 verify_default_email gateway_success
           (mkRequest [("tx_ref", "TX123")]) tx123_world).
  reflexivity.
Defined.

(** C8, where the claim fails: a request without [tx_ref] is answered with
    the handled 404 response; no missing-key error is raised. *)
Lemma verify_without_tx_ref_is_handled :
  let run := verify_payment_view gateway_success (mkRequest [("email", "a@b.c")])
               tx123_world in
  QueryDict.get (GET (mkRequest [("email", "a@b.c")])) "tx_ref" = None
  /\ fst run = Return not_found_response
  /\ forall key : string, fst run <> Raise (Py.KeyError key).
Proof. repeat split; try reflexivity. intros key H. discriminate H. Qed.

(** C8, amended: for a verification request in which [tx_ref] is absent, the
    absence is not validated: the reference is [None], no missing-key error
    is raised, the lookup matches no Payment row, and the view returns the
    handled 404 response with the body ["Payment not found"] under
    ["error"], leaving the world as it was. *)
Theorem verify_without_tx_ref
    (verify_payment : option string -> Py.value) (request : HttpRequest) (w : World) :
  QueryDict.get (GET request) "tx_ref" = None ->
  verify_payment_view verify_payment request w
  = (Return {| content := Py.Dict [("error", Py.Str "Payment not found")];
               status_code := 404 |}, w)
  /\ forall key : string,
       fst (verify_payment_view verify_payment request w) <> Raise (Py.KeyError key).
Proof.
  intros Habsent.
  assert (Hnone : ORM.filter_first (request_reference request) (payments w) = None).
  { unfold request_reference. rewrite Habsent. apply filter_first_no_reference. }
  rewrite (view_not_found verify_payment request w Hnone).
  split; [reflexivity|]. intros key H. discriminate H.
Qed.

Lemma verify_without_tx_ref_witness :
  QueryDict.get (GET (mkRequest [])) "tx_ref" = None
  /\ verify_payment_view gateway_success (mkRequest []) tx123_world
     = (Return {| content := Py.Dict [("error", Py.Str "Payment not found")];
                  status_code := 404 |}, tx123_world).
Proof.
  split; [reflexivity|].
  apply (verify_without_tx_ref gateway_success (mkRequest []) tx123_world).
  reflexivity.
Defined.

(** ** Payment verification: what a call may change *)

Lemma Forall2_map_pointwise {A} (R : A -> A -> Prop) (f : A -> A) (l : list A) :
  (forall a, In a l -> R a (f a)) -> Forall2 R l (map f l).
Proof.
  induction l as [|a l IH]; intros H; simpl; constructor.
  - apply H. left. reflexivity.
  - apply IH. intros b Hb. apply H. right. exact Hb.
Qed.

Lemma save_row_keeps_rows (s : string) (p : Payment.t) (tbl : list Payment.t) :
  ORM.pk_unique tbl -> In p tbl ->
  Forall2 (row_kept p) tbl (ORM.save_row (Payment.set_status s p) tbl).
Proof.
  intros Hpk Hin.
  rewrite (save_row_present p (Payment.set_status s p) tbl Hin eq_refl).
  apply Forall2_map_pointwise. intros r Hr.
  rewrite same_pk_set_status. unfold ORM.same_pk.
  destruct (Z.eqb_spec (Payment.id r) (Payment.id p)) as [Heq | Hne].
  - rewrite (pk_unique_inj tbl r p Hpk Hr Hin Heq).
    repeat split. intros Hc. contradiction.
  - repeat split.
Qed.

(** C9: every verification call that finds a matching Payment row changes at
    most that row's status: whatever the gateway answers, the row the same
    lookup returns after the call has the identifier, the booking_reference
    and the amount it had before; in a table with unique primary keys every
    row keeps these three fields and every other row is left as it was; the
    number of rows, the Booking table and the files do not change. *)
Theorem verify_changes_status_only
    (verify_payment : option string -> Py.value) (request : HttpRequest)
    (w : World) (p : Payment.t) :
  ORM.filter_first (request_reference request) (payments w) = Some p ->
  (exists p' : Payment.t,
      ORM.filter_first (request_reference request)
        (payments (snd (verify_payment_view verify_payment request w))) = Some p'
      /\ Payment.id p' = Payment.id p
      /\ Payment.booking_reference p' = Payment.booking_reference p
      /\ Payment.amount p' = Payment.amount p)
  /\ (ORM.pk_unique (payments w) ->
      Forall2 (row_kept p) (payments w)
        (payments (snd (verify_payment_view verify_payment request w))))
  /\ length (payments (snd (verify_payment_view verify_payment request w)))
     = length (payments w)
  /\ bookings (snd (verify_payment_view verify_payment request w)) = bookings w
  /\ files (snd (verify_payment_view verify_payment request w)) = files w.
Proof.
  intros Hfound.
  destruct (filter_first_Some _ _ _ Hfound) as [Hin _].
  destruct (dict_shaped (verify_payment (request_reference request))) eqn:Hshape.
  - rewrite (view_found verify_payment request w p _ Hfound
               (extract_status_dict_shaped _ Hshape)).
    cbn [snd payments bookings files verified_world].
    fold (request_reference request).
    split.
    + eexists. split; [apply (filter_first_save_row _ _ _ _ Hfound)|].
      repeat split.
    + split; [intros Hpk; apply save_row_keeps_rows; assumption|].
      split; [|split; reflexivity].
      apply (save_row_length p); [assumption | reflexivity].
  - rewrite (view_raises verify_payment request w p _ Hfound
               (extract_status_not_dict_shaped _ Hshape)).
    cbn [snd payments bookings files log_event].
    split; [exists p; repeat split; assumption|].
    split; [|repeat split].
    intros _. rewrite <- (map_id (payments w)) at 2.
    apply Forall2_map_pointwise. intros r _. repeat split.
Qed.

Lemma verify_changes_status_only_witness :
  ORM.filter_first (request_reference (mkRequest [("tx_ref", "TX123")]))
    (payments tx123_world) = Some tx123_row
  /\ ORM.pk_unique (payments tx123_world)
  /\ Forall2 (row_kept tx123_row) (payments tx123_world)
       (payments (snd (verify_payment_view gateway_success
                         (mkRequest [("tx_ref", "TX123")]) tx123_world)))
  /\ bookings (snd (verify_payment_view gateway_success
                      (mkRequest [("tx_ref", "TX123")]) tx123_world))
     = bookings tx123_world.
Proof.
  assert (Hpk : ORM.pk_unique (payments tx123_world)).
  { unfold ORM.pk_unique. simpl. apply NoDup_singleton. }
  split; [reflexivity|]. split; [exact Hpk|].
  destruct (verify_changes_status_only gateway_success
              (mkRequest [("tx_ref", "TX123")]) tx123_world tx123_row eq_refl)
    as (_ & Hrows & _ & Hb & _).
  split; [exact (Hrows Hpk) | exact Hb].
Defined.

(** ** The booking-confirmation task *)

Section TaskRuns.

Variable send_mail : Mail -> Result Z.
Variable now : string.
Variables (to_email : string) (booking_id : Z) (w : World).

Lemma task_run_returns (n : Z) :
  send_mail (booking_mail to_email booking_id) = Return n ->
  send_booking_confirmation_email send_mail now to_email booking_id w
  = (Return ("Email sent to " +:+ to_email),
     {| payments := payments w;
        bookings := bookings w;
        files := <[booking_email_log :=
                     default "" (files w !! booking_email_log)
                     +:+ booking_log_message now to_email booking_id]> (files w);
        trace := trace w
                 ++ [MailCalled (booking_mail to_email booking_id);
                     FileAppended booking_email_log
                       (booking_log_message now to_email booking_id)] |}).
Proof.
  intros Hmail.
  unfold send_booking_confirmation_email, bind, call_send_mail.
  fold (booking_mail to_email booking_id). rewrite Hmail.
  unfold append_file, effect, ret, log_event, with_files. cbn [trace files payments bookings].
  rewrite <- app_assoc. reflexivity.
Qed.

Lemma task_run_raises (e : Py.exn) :
  send_mail (booking_mail to_email booking_id) = Raise e ->
  send_booking_confirmation_email send_mail now to_email booking_id w
  = (Raise e, log_event (MailCalled (booking_mail to_email booking_id)) w).
Proof.
  intros Hmail.
  unfold send_booking_confirmation_email, bind, call_send_mail.
  fold (booking_mail to_email booking_id). rewrite Hmail.
  reflexivity.
Qed.

End TaskRuns.

(** C6, where the claim fails: when the mail collaborator raises, the task
    has called it once but appends no line to the log file and returns no
    confirmation string. *)
Lemma task_mail_down_no_log_line :
  let run := send_booking_confirmation_email mail_down "2026-01-02 03:04:05.000006"
               "a@b.c" 7 empty_world in
  mails (snd run) = [booking_mail "a@b.c" 7]
  /\ fst run = Raise (Py.SMTPException "Connection refused")
  /\ fst run <> Return "Email sent to a@b.c"
  /\ files (snd run) !! booking_email_log = None.
Proof. repeat split; try reflexivity. intros H. discriminate H. Qed.

(** C6, amended: for every invocation of
    [send_booking_confirmation_email(to_email, booking_id)] in which the
    mail collaborator returns, the collaborator is called exactly once, with
    the subject ["Booking Confirmation #<booking_id>"], the fixed-format
    message naming booking_id, the sender ["noreply@alxtravelapp.com"] and
    the recipient list [[to_email]]; exactly one text,
    ["<timestamp> - Email sent to <to_email> for booking <booking_id>"]
    followed by a line feed, is appended to the fixed log file, no other
    file is touched, and the task returns ["Email sent to <to_email>"]. *)
Theorem task_sends_logs_returns
    (send_mail : Mail -> Result Z) (now to_email : string) (booking_id : Z)
    (w : World) (n : Z) :
  send_mail {| subject := "Booking Confirmation #" +:+ Py.str_int booking_id;
               message := "Your booking with ID " +:+ Py.str_int booking_id
                          +:+ " has been confirmed!";
               from_email := "noreply@alxtravelapp.com";
               recipient_list := [to_email] |} = Return n ->
  fst (send_booking_confirmation_email send_mail now to_email booking_id w)
  = Return ("Email sent to " +:+ to_email)
  /\ mails (snd (send_booking_confirmation_email send_mail now to_email booking_id w))
     = (mails w
        ++ [{| subject := "Booking Confirmation #" +:+ Py.str_int booking_id;
               message := "Your booking with ID " +:+ Py.str_int booking_id
                          +:+ " has been confirmed!";
               from_email := "noreply@alxtravelapp.com";
               recipient_list := [to_email] |}])%list
  /\ files (snd (send_booking_confirmation_email send_mail now to_email booking_id w))
       !! "/tmp/booking_email_log.txt"
     = Some (default "" (files w !! "/tmp/booking_email_log.txt")
             +:+ (now +:+ " - Email sent to " +:+ to_email +:+ " for booking "
                      +:+ Py.str_int booking_id +:+ LF))
  /\ (forall path : string,
        path <> "/tmp/booking_email_log.txt" ->
        files (snd (send_booking_confirmation_email send_mail now to_email booking_id w))
          !! path = files w !! path)
  /\ trace (snd (send_booking_confirmation_email send_mail now to_email booking_id w))
     = (trace w
        ++ [MailCalled (booking_mail to_email booking_id);
            FileAppended "/tmp/booking_email_log.txt"
              (now +:+ " - Email sent to " +:+ to_email +:+ " for booking "
                   +:+ Py.str_int booking_id +:+ LF)])%list.
Proof.
  intros Hmail.
  rewrite (task_run_returns send_mail now to_email booking_id w n Hmail).
  cbn [fst snd files trace].
  split; [reflexivity|]. split.
  - unfold mails. cbn [trace]. rewrite omap_app. reflexivity.
  - split; [apply lookup_insert_eq|].
    split; [|reflexivity].
    intros path Hpath. apply lookup_insert_ne. unfold booking_email_log. congruence.
Qed.

Lemma task_sends_logs_returns_witness :
  mail_ok {| subject := "Booking Confirmation #" +:+ Py.str_int 7;
             message := "Your booking with ID " +:+ Py.str_int 7
                        +:+ " has been confirmed!";
             from_email := "noreply@alxtravelapp.com";
             recipient_list := ["a@b.c"] |} = Return 1
  /\ fst (send_booking_confirmation_email mail_ok "2026-01-02 03:04:05.000006"
            "a@b.c" 7 empty_world)
     = Return "Email sent to a@b.c"
  /\ files (snd (send_booking_confirmation_email mail_ok "2026-01-02 03:04:05.000006"
                   "a@b.c" 7 empty_world)) !! "/tmp/booking_email_log.txt"
     = Some ("2026-01-02 03:04:05.000006 - Email sent to a@b.c for booking 7" +:+ LF).
Proof.
  split; [reflexivity|].
  destruct (task_sends_logs_returns mail_ok "2026-01-02 03:04:05.000006" "a@b.c" 7
              empty_world 1 eq_refl) as (Hret & _ & Hlog & _).
  split; [exact Hret | exact Hlog].
Defined.

(** C10: in [send_booking_confirmation_email] the log line is appended only
    after the mail-send call has returned: when the call returns, the trace
    grows by the mail call followed by the append; when the mail
    collaborator raises, the exception leaves the task, no file is changed,
    no append is recorded and no confirmation string is returned. *)
Theorem task_logs_only_after_mail
    (send_mail : Mail -> Result Z) (now to_email : string) (booking_id : Z)
    (w : World) :
  (forall e : Py.exn,
      send_mail (booking_mail to_email booking_id) = Raise e ->
      fst (send_booking_confirmation_email send_mail now to_email booking_id w)
      = Raise e
      /\ (forall s : string,
            fst (send_booking_confirmation_email send_mail now to_email booking_id w)
            <> Return s)
      /\ files (snd (send_booking_confirmation_email send_mail now to_email booking_id w))
         = files w
      /\ trace (snd (send_booking_confirmation_email send_mail now to_email booking_id w))
         = (trace w ++ [MailCalled (booking_mail to_email booking_id)])%list)
  /\ (forall path text : string,
        In (FileAppended path text)
           (trace (snd (send_booking_confirmation_email
                          send_mail now to_email booking_id w))) ->
        ~ In (FileAppended path text) (trace w) ->
        (exists n : Z, send_mail (booking_mail to_email booking_id) = Return n)
        /\ trace (snd (send_booking_confirmation_email
                         send_mail now to_email booking_id w))
           = (trace w ++ [MailCalled (booking_mail to_email booking_id);
                          FileAppended path text])%list).
Proof.
  split.
  - intros e Hmail.
    rewrite (task_run_raises send_mail now to_email booking_id w e Hmail).
    cbn [fst snd]. split; [reflexivity|].
    split; [intros s H; discriminate H|]. split; reflexivity.
  - intros path text Hin Hold.
    destruct (send_mail (booking_mail to_email booking_id)) as [n | e] eqn:Hmail.
    + rewrite (task_run_returns send_mail now to_email booking_id w n Hmail) in Hin |- *.
      cbn [snd trace] in Hin |- *.
      split; [exists n; reflexivity|].
      apply in_app_or in Hin as [Hin | Hin]; [contradiction|].
      destruct Hin as [H | [H | []]]; [discriminate H|].
      injection H as <- <-. reflexivity.
    + rewrite (task_run_raises send_mail now to_email booking_id w e Hmail) in Hin.
      cbn [snd trace log_event] in Hin.
      apply in_app_or in Hin as [Hin | Hin]; [contradiction|].
      destruct Hin as [H | []]. discriminate H.
Qed.

Lemma task_logs_only_after_mail_witness :
  mail_down (booking_mail "a@b.c" 7) = Raise (Py.SMTPException "Connection refused")
  /\ fst (send_booking_confirmation_email mail_down "2026-01-02 03:04:05.000006"
            "a@b.c" 7 empty_world)
     = Raise (Py.SMTPException "Connection refused")
  /\ files (snd (send_booking_confirmation_email mail_down "2026-01-02 03:04:05.000006"
                   "a@b.c" 7 empty_world))
     = files empty_world.
Proof.
  split; [reflexivity|].
  destruct (proj1 (task_logs_only_after_mail mail_down "2026-01-02 03:04:05.000006"
                     "a@b.c" 7 empty_world)
              (Py.SMTPException "Connection refused") eq_refl)
    as (Hraise & _ & Hfiles & _).
  split; [exact Hraise | exact Hfiles].
Defined.

(** ** Payment verification: every way a call can end *)

Lemma extract_status_cases (r : Py.value) :
  (dict_shaped r = true /\ extract_status r = Return (gateway_status r))
  \/ (dict_shaped r = false /\ extract_status r = Raise (Py.AttributeError "get")).
Proof.
  destruct (dict_shaped r) eqn:Hshape; [left | right]; split; try reflexivity.
  - apply extract_status_dict_shaped, Hshape.
  - apply extract_status_not_dict_shaped, Hshape.
Qed.

(** The table after a call is [table_after] of the table before it. *)
Lemma payments_after_view
    (verify_payment : option string -> Py.value) (request : HttpRequest) (w : World) :
  payments (snd (verify_payment_view verify_payment request w))
  = table_after verify_payment (request_reference request) (payments w).
Proof.
  unfold table_after.
  destruct (ORM.filter_first (request_reference request) (payments w))
    as [p|] eqn:Hfirst.
  - destruct (extract_status (verify_payment (request_reference request)))
      as [s | e] eqn:Hex.
    + rewrite (view_found verify_payment request w p s Hfirst Hex). reflexivity.
    + rewrite (view_raises verify_payment request w p e Hfirst Hex). reflexivity.
  - rewrite (view_not_found verify_payment request w Hfirst). reflexivity.
Qed.


(** X3: when the reference matches a row but the gateway answer is not a
    dict, or its ["data"] entry is present and not a dict, the view raises
    [AttributeError]; by then the gateway has been called, and that call is
    the only effect: the Payment table is as before, nothing was saved and
    no job was enqueued. *)
Theorem verify_malformed_answer_raises
    (verify_payment : option string -> Py.value) (request : HttpRequest)
    (w : World) (p : Payment.t) :
  ORM.filter_first (request_reference request) (payments w) = Some p ->
  dict_shaped (verify_payment (request_reference request)) = false ->
  fst (verify_payment_view verify_payment request w) = Raise (Py.AttributeError "get")
  /\ payments (snd (verify_payment_view verify_payment request w)) = payments w
  /\ enqueued (snd (verify_payment_view verify_payment request w)) = enqueued w
  /\ trace (snd (verify_payment_view verify_payment request w))
     = (trace w ++ [GatewayCalled (request_reference request)])%list.
Proof.
  intros Hfound Hshape.
  rewrite (view_raises verify_payment request w p _ Hfound
             (extract_status_not_dict_shaped _ Hshape)).
  cbn [fst snd]. rewrite enqueued_log_gateway. repeat split.
Qed.

Lemma verify_malformed_answer_raises_witness :
  ORM.filter_first (request_reference (mkRequest [("tx_ref", "TX123")]))
    (payments tx123_world) = Some tx123_row
  /\ dict_shaped (gateway_null_data (request_reference (mkRequest [("tx_ref", "TX123")])))
     = false
  /\ fst (verify_payment_view gateway_null_data (mkRequest [("tx_ref", "TX123")])
            tx123_world) = Raise (Py.AttributeError "get")
  /\ payments (snd (verify_payment_view gateway_null_data
                      (mkRequest [("tx_ref", "TX123")]) tx123_world))
     = payments tx123_world.
Proof.
  split; [reflexivity|]. split; [reflexivity|].
  destruct (verify_malformed_answer_raises gateway_null_data
              (mkRequest [("tx_ref", "TX123")]) tx123_world tx123_row eq_refl eq_refl)
    as (Hr & Hp & _).
  split; [exact Hr | exact Hp].
Defined.


(** X5: when the reference matches a row, the gateway is called exactly
    once, with the request's tx_ref, and before anything else happens: the
    call is the first event the view adds to the trace, whatever the answer
    turns out to be. *)
Theorem verify_calls_gateway_first
    (verify_payment : option string -> Py.value) (request : HttpRequest)
    (w : World) (p : Payment.t) :
  ORM.filter_first (request_reference request) (payments w) = Some p ->
  gateway_calls (snd (verify_payment_view verify_payment request w))
  = (gateway_calls w ++ [request_reference request])%list
  /\ exists rest : list Event,
       trace (snd (verify_payment_view verify_payment request w))
       = (trace w ++ GatewayCalled (request_reference request) :: rest)%list
       /\ forallb (fun e => negb (is_gateway_call e)) rest = true.
Proof.
  intros Hfound.
  destruct (extract_status_cases (verify_payment (request_reference request)))
    as [[_ Hex] | [_ Hex]].
  - rewrite (view_found verify_payment request w p _ Hfound Hex). cbn [snd].
    split.
    + unfold gateway_calls, verified_world. cbn [trace]. rewrite omap_app. reflexivity.
    + eexists. split; [reflexivity | reflexivity].
  - rewrite (view_raises verify_payment request w p _ Hfound Hex). cbn [snd].
    split.
    + unfold gateway_calls, log_event. cbn [trace]. rewrite omap_app. reflexivity.
    + exists []. split; reflexivity.
Qed.

Lemma verify_calls_gateway_first_witness :
  ORM.filter_first (request_reference (mkRequest [("tx_ref", "TX123")]))
    (payments tx123_world) = Some tx123_row
  /\ gateway_calls (snd (verify_payment_view gateway_success
                           (mkRequest [("tx_ref", "TX123")]) tx123_world))
     = (gateway_calls tx123_world
        ++ [request_reference (mkRequest [("tx_ref", "TX123")])])%list.
Proof.
  split; [reflexivity|].
  apply (verify_calls_gateway_first gateway_success (mkRequest [("tx_ref", "TX123")])
           tx123_world tx123_row eq_refl).
Defined.

(** ** Payment verification: rows, keys and other references *)

Lemma reference_matches_other (reference other : option string) (p : Payment.t) :
  ORM.reference_matches reference p = true -> other <> reference ->
  ORM.reference_matches other p = false.
Proof.
  destruct reference as [a|]; simpl; [|discriminate].
  intros Ha Hne. apply String.eqb_eq in Ha.
  destruct other as [b|]; simpl; [|reflexivity].
  destruct (String.eqb_spec (Payment.booking_reference p) b) as [Hb|]; [|reflexivity].
  exfalso. apply Hne. congruence.
Qed.

Lemma filter_map_unaffected {A} (m : A -> bool) (f : A -> A) (l : list A) :
  (forall a, In a l -> f a = a \/ (m a = false /\ m (f a) = false)) ->
  List.filter m (map f l) = List.filter m l.
Proof.
  induction l as [|a l IH]; intros H; simpl; [reflexivity|].
  rewrite IH by (intros b Hb; apply H; right; exact Hb).
  destruct (H a (or_introl eq_refl)) as [-> | [-> ->]]; reflexivity.
Qed.

Lemma save_row_ids p q tbl :
  In p tbl -> Payment.id q = Payment.id p ->
  map Payment.id (ORM.save_row q tbl) = map Payment.id tbl.
Proof.
  intros Hin Hid. rewrite (save_row_present p q tbl Hin Hid), map_map.
  apply map_ext. intros r. unfold ORM.same_pk.
  destruct (Z.eqb_spec (Payment.id r) (Payment.id q)); congruence.
Qed.

Lemma table_after_ids verify_payment reference tbl :
  map Payment.id (table_after verify_payment reference tbl) = map Payment.id tbl.
Proof.
  unfold table_after.
  destruct (ORM.filter_first reference tbl) as [p|] eqn:Hfirst; [|reflexivity].
  destruct (extract_status (verify_payment reference)); [|reflexivity].
  destruct (filter_first_Some _ _ _ Hfirst) as [Hin _].
  apply (save_row_ids p); [assumption | reflexivity].
Qed.

(** Saving the row found under one reference is not seen by a lookup under
    another reference. *)
Lemma save_row_frame reference other s p tbl :
  ORM.pk_unique tbl -> other <> reference ->
  ORM.filter_first reference tbl = Some p ->
  ORM.filter_first other (ORM.save_row (Payment.set_status s p) tbl)
  = ORM.filter_first other tbl.
Proof.
  intros Hpk Hne Hfirst.
  destruct (filter_first_Some _ _ _ Hfirst) as [Hin Hmatch].
  rewrite (save_row_present p (Payment.set_status s p) tbl Hin eq_refl).
  unfold ORM.filter_first. f_equal.
  apply filter_map_unaffected. intros r Hr.
  rewrite same_pk_set_status. unfold ORM.same_pk.
  destruct (Z.eqb_spec (Payment.id r) (Payment.id p)) as [Heq | _]; [right | left; reflexivity].
  rewrite (pk_unique_inj tbl r p Hpk Hr Hin Heq), reference_matches_set_status.
  split; apply (reference_matches_other reference); assumption.
Qed.

Lemma table_after_frame verify_payment reference other tbl :
  ORM.pk_unique tbl -> other <> reference ->
  ORM.filter_first other (table_after verify_payment reference tbl)
  = ORM.filter_first other tbl.
Proof.
  intros Hpk Hne. unfold table_after.
  destruct (ORM.filter_first reference tbl) as [p|] eqn:Hfirst; [|reflexivity].
  destruct (extract_status (verify_payment reference)); [|reflexivity].
  apply (save_row_frame reference); assumption.
Qed.

(** The response of a call, read off the lookup and the gateway answer. *)
Lemma response_of_view
    (verify_payment : option string -> Py.value) (request : HttpRequest) (w : World) :
  fst (verify_payment_view verify_payment request w)
  = match ORM.filter_first (request_reference request) (payments w) with
    | Some _ =>
        match extract_status (verify_payment (request_reference request)) with
        | Return status => Return (status_response (new_status status))
        | Raise e => Raise e
        end
    | None => Return not_found_response
    end.
Proof.
  destruct (ORM.filter_first (request_reference request) (payments w))
    as [p|] eqn:Hfirst.
  - destruct (extract_status (verify_payment (request_reference request)))
      as [s | e] eqn:Hex.
    + rewrite (view_found verify_payment request w p s Hfirst Hex). reflexivity.
    + rewrite (view_raises verify_payment request w p e Hfirst Hex). reflexivity.
  - rewrite (view_not_found verify_payment request w Hfirst). reflexivity.
Qed.

(** X6: in a table with unique primary keys, verifying one reference is not
    seen under any other reference: the row a lookup by another reference
    returns, and so its status, is the same after the call as before it, for
    every gateway answer. *)
Theorem verify_other_reference_untouched
    (verify_payment : option string -> Py.value) (request : HttpRequest)
    (w : World) (other : option string) :
  ORM.pk_unique (payments w) ->
  other <> request_reference request ->
  ORM.filter_first other (payments (snd (verify_payment_view verify_payment request w)))
  = ORM.filter_first other (payments w)
  /\ payment_status_of other (snd (verify_payment_view verify_payment request w))
     = payment_status_of other w.
Proof.
  intros Hpk Hne.
  assert (H : ORM.filter_first other
                (payments (snd (verify_payment_view verify_payment request w)))
              = ORM.filter_first other (payments w)).
  { rewrite payments_after_view. apply table_after_frame; assumption. }
  split; [exact H|]. unfold payment_status_of. rewrite H. reflexivity.
Qed.

Lemma two_row_world_pk_unique : ORM.pk_unique (payments two_row_world).
Proof.
  unfold ORM.pk_unique. simpl.
  apply NoDup_cons. split; [|apply NoDup_singleton].
  intros H. apply list_elem_of_singleton in H. discriminate H.
Defined.

Lemma verify_other_reference_untouched_witness :
  ORM.pk_unique (payments two_row_world)
  /\ Some "TX456" <> request_reference (mkRequest [("tx_ref", "TX123")])
  /\ payment_status_of (Some "TX456")
       (snd (verify_payment_view gateway_success (mkRequest [("tx_ref", "TX123")])
               two_row_world))
     = payment_status_of (Some "TX456") two_row_world.
Proof.
  split; [exact two_row_world_pk_unique|].
  split; [discriminate|].
  apply (verify_other_reference_untouched gateway_success
           (mkRequest [("tx_ref", "TX123")]) two_row_world (Some "TX456")
           two_row_world_pk_unique).
  discriminate.
Defined.

(** X8: no verification call adds, removes or re-keys a Payment row: the
    list of primary keys of the table is the same after every call, so a
    table with unique primary keys stays one. *)
Theorem verify_keeps_primary_keys
    (verify_payment : option string -> Py.value) (request : HttpRequest) (w : World) :
  map Payment.id (payments (snd (verify_payment_view verify_payment request w)))
  = map Payment.id (payments w)
  /\ (ORM.pk_unique (payments w) ->
      ORM.pk_unique (payments (snd (verify_payment_view verify_payment request w)))).
Proof.
  assert (H : map Payment.id
                (payments (snd (verify_payment_view verify_payment request w)))
              = map Payment.id (payments w))
    by (rewrite payments_after_view; apply table_after_ids).
  split; [exact H|]. unfold ORM.pk_unique. rewrite H. auto.
Qed.

Lemma verify_keeps_primary_keys_witness :
  ORM.pk_unique (payments two_row_world)
  /\ ORM.pk_unique
       (payments (snd (verify_payment_view gateway_success
                         (mkRequest [("tx_ref", "TX456")]) two_row_world))).
Proof.
  split; [exact two_row_world_pk_unique|].
  apply (proj2 (verify_keeps_primary_keys gateway_success
                  (mkRequest [("tx_ref", "TX456")]) two_row_world)).
  exact two_row_world_pk_unique.
Defined.

(** ** Payment verification: two references, either order *)

Lemma save_row_comm p1 p2 q1 q2 tbl :
  In p1 tbl -> In p2 tbl ->
  Payment.id q1 = Payment.id p1 -> Payment.id q2 = Payment.id p2 ->
  Payment.id p1 <> Payment.id p2 ->
  ORM.save_row q2 (ORM.save_row q1 tbl) = ORM.save_row q1 (ORM.save_row q2 tbl).
Proof.
  intros Hin1 Hin2 Hid1 Hid2 Hne.
  set (f1 := fun r => if ORM.same_pk q1 r then q1 else r).
  set (f2 := fun r => if ORM.same_pk q2 r then q2 else r).
  assert (H12 : ORM.same_pk q1 p2 = false)
    by (unfold ORM.same_pk; apply Z.eqb_neq; congruence).
  assert (H21 : ORM.same_pk q2 p1 = false)
    by (unfold ORM.same_pk; apply Z.eqb_neq; congruence).
  rewrite (save_row_present p1 q1 tbl Hin1 Hid1), (save_row_present p2 q2 tbl Hin2 Hid2).
  fold f1 f2.
  assert (Hin2' : In p2 (map f1 tbl)).
  { apply in_map_iff. exists p2. split; [|assumption]. unfold f1. rewrite H12. reflexivity. }
  assert (Hin1' : In p1 (map f2 tbl)).
  { apply in_map_iff. exists p1. split; [|assumption]. unfold f2. rewrite H21. reflexivity. }
  rewrite (save_row_present p2 q2 _ Hin2' Hid2), (save_row_present p1 q1 _ Hin1' Hid1).
  fold f1 f2. rewrite !map_map. apply map_ext. intros r. unfold f1, f2, ORM.same_pk.
  destruct (Z.eqb_spec (Payment.id r) (Payment.id q1)) as [E1 | N1];
    destruct (Z.eqb_spec (Payment.id r) (Payment.id q2)) as [E2 | N2];
    repeat match goal with
           | |- context [Z.eqb ?x ?y] => destruct (Z.eqb_spec x y)
           end;
    try reflexivity; exfalso; congruence.
Qed.

Lemma table_after_comm verify_payment (a b : option string) tbl :
  ORM.pk_unique tbl -> a <> b ->
  table_after verify_payment b (table_after verify_payment a tbl)
  = table_after verify_payment a (table_after verify_payment b tbl).
Proof.
  intros Hpk Hab.
  assert (Hba : b <> a) by congruence.
  pose proof (table_after_frame verify_payment a b tbl Hpk Hba) as Fb.
  pose proof (table_after_frame verify_payment b a tbl Hpk Hab) as Fa.
  unfold table_after at 1 3. rewrite Fb, Fa.
  unfold table_after.
  destruct (ORM.filter_first a tbl) as [pA|] eqn:HA;
    destruct (ORM.filter_first b tbl) as [pB|] eqn:HB;
    destruct (extract_status (verify_payment a)) as [sA | eA];
    destruct (extract_status (verify_payment b)) as [sB | eB];
    try reflexivity.
  destruct (filter_first_Some _ _ _ HA) as [HinA HmA].
  destruct (filter_first_Some _ _ _ HB) as [HinB HmB].
  apply (save_row_comm pA pB); try assumption; try reflexivity.
  intros Hid. pose proof (pk_unique_inj tbl pA pB Hpk HinA HinB Hid) as ->.
  rewrite (reference_matches_other b a pB HmB Hab) in HmA. discriminate HmA.
Qed.

(** X7: in a table with unique primary keys, verification calls for two
    different references can run in either order: the Payment table at the
    end is the same, and the response to each request is the one it would
    get if the other call did not happen. *)
Theorem verify_two_references_commute
    (verify_payment : option string -> Py.value) (request_a request_b : HttpRequest)
    (w : World) :
  ORM.pk_unique (payments w) ->
  request_reference request_a <> request_reference request_b ->
  payments (snd (verify_payment_view verify_payment request_b
                   (snd (verify_payment_view verify_payment request_a w))))
  = payments (snd (verify_payment_view verify_payment request_a
                     (snd (verify_payment_view verify_payment request_b w))))
  /\ fst (verify_payment_view verify_payment request_b
            (snd (verify_payment_view verify_payment request_a w)))
     = fst (verify_payment_view verify_payment request_b w)
  /\ fst (verify_payment_view verify_payment request_a
            (snd (verify_payment_view verify_payment request_b w)))
     = fst (verify_payment_view verify_payment request_a w).
Proof.
  intros Hpk Hab.
  assert (Hba : request_reference request_b <> request_reference request_a)
    by congruence.
  split.
  - rewrite !payments_after_view. apply table_after_comm; assumption.
  - split; rewrite !response_of_view, payments_after_view, table_after_frame;
      (reflexivity || assumption).
Qed.

Lemma verify_two_references_commute_witness :
  ORM.pk_unique (payments two_row_world)
  /\ request_reference (mkRequest [("tx_ref", "TX123")])
     <> request_reference (mkRequest [("tx_ref", "TX456")])
  /\ payments (snd (verify_payment_view gateway_by_reference
                      (mkRequest [("tx_ref", "TX456")])
                      (snd (verify_payment_view gateway_by_reference
                              (mkRequest [("tx_ref", "TX123")]) two_row_world))))
     = payments (snd (verify_payment_view gateway_by_reference
                        (mkRequest [("tx_ref", "TX123")])
                        (snd (verify_payment_view gateway_by_reference
                                (mkRequest [("tx_ref", "TX456")]) two_row_world)))).
Proof.
  split; [exact two_row_world_pk_unique|].
  split; [discriminate|].
  apply (verify_two_references_commute gateway_by_reference
           (mkRequest [("tx_ref", "TX123")]) (mkRequest [("tx_ref", "TX456")])
           two_row_world two_row_world_pk_unique).
  discriminate.
Defined.

Example run_two_references :
  payments (snd (verify_payment_view gateway_by_reference
                   (mkRequest [("tx_ref", "TX456")])
                   (snd (verify_payment_view gateway_by_reference
                           (mkRequest [("tx_ref", "TX123")]) two_row_world))))
  = [Payment.set_status "Completed" tx123_row; Payment.set_status "Failed" tx456_row].
Proof. reflexivity. Qed.

(** ** Payment verification: each call notifies again *)

(** X9: the view keeps no record of having verified a reference: when a row
    matches and the gateway gives the same dict-shaped answer twice, the
    second call consults the gateway again and enqueues the same
    confirmation job a second time. *)
Theorem verify_twice_enqueues_twice
    (gateway1 gateway2 : option string -> Py.value) (request : HttpRequest)
    (w : World) (p : Payment.t) :
  ORM.filter_first (request_reference request) (payments w) = Some p ->
  dict_shaped (gateway1 (request_reference request)) = true ->
  gateway1 (request_reference request) = gateway2 (request_reference request) ->
  enqueued (snd (verify_payment_view gateway2 request
                   (snd (verify_payment_view gateway1 request w))))
  = (enqueued w
     ++ [send_payment_confirmation_email_job
           (request_email request) (request_reference request) (Payment.amount p)
           (new_status (gateway_status (gateway1 (request_reference request))));
         send_payment_confirmation_email_job
           (request_email request) (request_reference request) (Payment.amount p)
           (new_status (gateway_status (gateway1 (request_reference request))))])%list
  /\ gateway_calls (snd (verify_payment_view gateway2 request
                           (snd (verify_payment_view gateway1 request w))))
     = (gateway_calls w
        ++ [request_reference request; request_reference request])%list.
Proof.
  intros Hfound Hshape Hsame.
  pose proof (extract_status_dict_shaped _ Hshape) as Hex1.
  assert (Hex2 := Hex1). rewrite Hsame in Hex2 at 1.
  rewrite (view_found gateway1 request w p _ Hfound Hex1). cbn [snd].
  set (p' := Payment.set_status _ p).
  set (w1 := verified_world _ _ p' w).
  assert (Hfound1 : ORM.filter_first (request_reference request) (payments w1) = Some p')
    by apply (filter_first_save_row _ _ _ _ Hfound).
  rewrite (view_found gateway2 request w1 p' _ Hfound1 Hex2). cbn [snd].
  split.
  - rewrite enqueued_verified_world. unfold w1. rewrite enqueued_verified_world.
    rewrite <- app_assoc. reflexivity.
  - unfold gateway_calls, w1, verified_world. cbn [trace].
    rewrite !omap_app, <- app_assoc. reflexivity.
Qed.

Lemma verify_twice_enqueues_twice_witness :
  ORM.filter_first (request_reference (mkRequest [("tx_ref", "TX123")]))
    (payments tx123_world) = Some tx123_row
  /\ dict_shaped (gateway_success (request_reference (mkRequest [("tx_ref", "TX123")])))
     = true
  /\ gateway_calls (snd (verify_payment_view gateway_success
                           (mkRequest [("tx_ref", "TX123")])
                           (snd (verify_payment_view gateway_success
                                   (mkRequest [("tx_ref", "TX123")]) tx123_world))))
     = (gateway_calls tx123_world
        ++ [request_reference (mkRequest [("tx_ref", "TX123")]);
            request_reference (mkRequest [("tx_ref", "TX123")])])%list.
Proof.
  split; [reflexivity|]. split; [reflexivity|].
  apply (verify_twice_enqueues_twice gateway_success gateway_success
           (mkRequest [("tx_ref", "TX123")]) tx123_world tx123_row eq_refl eq_refl eq_refl).
Defined.

(** ** The booking-confirmation task: what it leaves alone, and repeats *)

Lemma task_run_cases (send_mail : Mail -> Result Z) (now to_email : string)
    (booking_id : Z) (w : World) :
  (exists n, send_mail (booking_mail to_email booking_id) = Return n)
  \/ (exists e, send_mail (booking_mail to_email booking_id) = Raise e).
Proof. destruct (send_mail (booking_mail to_email booking_id)); eauto. Qed.

(** X10: whether the mail call returns or raises, the task writes no table,
    enqueues no job, calls no gateway and touches no file other than the
    booking log; the mail collaborator is called exactly once. *)
Theorem task_leaves_rest_alone
    (send_mail : Mail -> Result Z) (now to_email : string) (booking_id : Z)
    (w : World) :
  payments (snd (send_booking_confirmation_email send_mail now to_email booking_id w))
  = payments w
  /\ bookings (snd (send_booking_confirmation_email send_mail now to_email booking_id w))
     = bookings w
  /\ enqueued (snd (send_booking_confirmation_email send_mail now to_email booking_id w))
     = enqueued w
  /\ gateway_calls
       (snd (send_booking_confirmation_email send_mail now to_email booking_id w))
     = gateway_calls w
  /\ mails (snd (send_booking_confirmation_email send_mail now to_email booking_id w))
     = (mails w ++ [booking_mail to_email booking_id])%list
  /\ forall path : string,
       path <> "/tmp/booking_email_log.txt" ->
       files (snd (send_booking_confirmation_email send_mail now to_email booking_id w))
         !! path = files w !! path.
Proof.
  destruct (task_run_cases send_mail now to_email booking_id w) as [[n H] | [e H]].
  - rewrite (task_run_returns send_mail now to_email booking_id w n H).
    cbn [snd payments bookings files].
    unfold enqueued, gateway_calls, mails. cbn [trace]. rewrite !omap_app.
    cbn [omap]. rewrite !app_nil_r.
    repeat split. intros path Hpath. apply lookup_insert_ne.
    unfold booking_email_log. congruence.
  - rewrite (task_run_raises send_mail now to_email booking_id w e H).
    cbn [snd payments bookings files log_event].
    unfold enqueued, gateway_calls, mails, log_event. cbn [trace]. rewrite !omap_app.
    cbn [omap]. rewrite !app_nil_r.
    repeat split.
Qed.

(** X11: the task keeps no record of what it has sent: two invocations in
    which the mail call returns send two messages and leave the log holding
    what it held before, then the line of the first invocation, then the
    line of the second. *)
Theorem task_twice_appends_two_lines
    (send_mail : Mail -> Result Z) (now1 now2 to1 to2 : string) (id1 id2 : Z)
    (w : World) (n1 n2 : Z) :
  send_mail (booking_mail to1 id1) = Return n1 ->
  send_mail (booking_mail to2 id2) = Return n2 ->
  files (snd (send_booking_confirmation_email send_mail now2 to2 id2
                (snd (send_booking_confirmation_email send_mail now1 to1 id1 w))))
    !! "/tmp/booking_email_log.txt"
  = Some ((default "" (files w !! "/tmp/booking_email_log.txt")
           +:+ booking_log_message now1 to1 id1)
          +:+ booking_log_message now2 to2 id2)
  /\ mails (snd (send_booking_confirmation_email send_mail now2 to2 id2
                   (snd (send_booking_confirmation_email send_mail now1 to1 id1 w))))
     = (mails w ++ [booking_mail to1 id1; booking_mail to2 id2])%list.
Proof.
  intros H1 H2.
  rewrite (task_run_returns send_mail now1 to1 id1 w n1 H1). cbn [snd].
  rewrite (task_run_returns send_mail now2 to2 id2 _ n2 H2). cbn [snd files trace].
  split.
  - rewrite lookup_insert_eq. unfold booking_email_log.
    rewrite lookup_insert_eq. reflexivity.
  - unfold mails. cbn [trace]. rewrite !omap_app. cbn [omap].
    rewrite <- app_assoc. reflexivity.
Qed.

Lemma task_twice_appends_two_lines_witness :
  mail_ok (booking_mail "a@b.c" 7) = Return 1
  /\ mail_ok (booking_mail "a@b.c" 7) = Return 1
  /\ mails (snd (send_booking_confirmation_email mail_ok "t2" "a@b.c" 7
                   (snd (send_booking_confirmation_email mail_ok "t1" "a@b.c" 7
                           empty_world))))
     = (mails empty_world ++ [booking_mail "a@b.c" 7; booking_mail "a@b.c" 7])%list.
Proof.
  split; [reflexivity|]. split; [reflexivity|].
  apply (task_twice_appends_two_lines mail_ok "t1" "t2" "a@b.c" "a@b.c" 7 7
           empty_world 1 1 eq_refl eq_refl).
Defined.

(** X12: a failed attempt leaves nothing in the log: when the mail call
    raises in one invocation and returns in the next one for the same
    booking, the mail collaborator has been called twice but the log gains
    exactly one line, the one of the attempt that went through. *)
Theorem task_retry_logs_once
    (failing working : Mail -> Result Z) (now1 now2 to_email : string)
    (booking_id : Z) (w : World) (e : Py.exn) (n : Z) :
  failing (booking_mail to_email booking_id) = Raise e ->
  working (booking_mail to_email booking_id) = Return n ->
  fst (send_booking_confirmation_email failing now1 to_email booking_id w) = Raise e
  /\ fst (send_booking_confirmation_email working now2 to_email booking_id
            (snd (send_booking_confirmation_email failing now1 to_email booking_id w)))
     = Return ("Email sent to " +:+ to_email)
  /\ files (snd (send_booking_confirmation_email working now2 to_email booking_id
                   (snd (send_booking_confirmation_email failing now1 to_email
                           booking_id w))))
       !! "/tmp/booking_email_log.txt"
     = Some (default "" (files w !! "/tmp/booking_email_log.txt")
             +:+ booking_log_message now2 to_email booking_id)
  /\ mails (snd (send_booking_confirmation_email working now2 to_email booking_id
                   (snd (send_booking_confirmation_email failing now1 to_email
                           booking_id w))))
     = (mails w ++ [booking_mail to_email booking_id;
                    booking_mail to_email booking_id])%list.
Proof.
  intros Hfail Hwork.
  rewrite (task_run_raises failing now1 to_email booking_id w e Hfail). cbn [fst snd].
  rewrite (task_run_returns working now2 to_email booking_id _ n Hwork).
  cbn [fst snd files trace log_event].
  split; [reflexivity|]. split; [reflexivity|]. split.
  - apply lookup_insert_eq.
  - unfold mails. cbn [trace]. rewrite !omap_app. cbn [omap].
    rewrite <- app_assoc. reflexivity.
Qed.

Lemma task_retry_logs_once_witness :
  mail_down (booking_mail "a@b.c" 7) = Raise (Py.SMTPException "Connection refused")
  /\ mail_ok (booking_mail "a@b.c" 7) = Return 1
  /\ files (snd (send_booking_confirmation_email mail_ok "t2" "a@b.c" 7
                   (snd (send_booking_confirmation_email mail_down "t1" "a@b.c" 7
                           empty_world))))
       !! "/tmp/booking_email_log.txt"
     = Some (default "" (files empty_world !! "/tmp/booking_email_log.txt")
             +:+ booking_log_message "t2" "a@b.c" 7).
Proof.
  split; [reflexivity|]. split; [reflexivity|].
  destruct (task_retry_logs_once mail_down mail_ok "t1" "t2" "a@b.c" 7 empty_world
              (Py.SMTPException "Connection refused") 1 eq_refl eq_refl)
    as (_ & _ & Hlog & _).
  exact Hlog.
Defined.

(** ** From the booking to the mail *)

(** X13: the job [perform_create] puts on the queue is a call of the booking
    task, and when a worker runs it with a mail collaborator that returns,
    the message goes to the email of the customer the booking was created
    for, under the subject ["Booking Confirmation #<id>"] with the id of the
    row just saved, and the task reports that address. *)
Theorem perform_create_then_worker
    (serializer : BookingSerializer) (send_mail : Mail -> Result Z) (now : string)
    (w : World) :
  (forall m : Mail, Py.is_raise (send_mail m) = false) ->
  exists (booking : Booking.t) (j : Job) (task : M string),
    last (bookings (snd (perform_create serializer w))) = Some booking
    /\ Booking.customer booking = validated_customer serializer
    /\ last (enqueued (snd (perform_create serializer w))) = Some j
    /\ run_job send_mail now j = Some task
    /\ fst (task (snd (perform_create serializer w)))
       = Return ("Email sent to " +:+ Customer.email (validated_customer serializer))
    /\ mails (snd (task (snd (perform_create serializer w))))
       = (mails w
          ++ [{| subject := "Booking Confirmation #" +:+ Py.str_int (Booking.id booking);
                 message := "Your booking with ID " +:+ Py.str_int (Booking.id booking)
                            +:+ " has been confirmed!";
                 from_email := "noreply@alxtravelapp.com";
                 recipient_list := [Customer.email (validated_customer serializer)] |}])%list.
Proof.
  intros Hmail.
  set (booking := {| Booking.id := ORM.next_booking_id (bookings w);
                     Booking.customer := validated_customer serializer |}).
  set (w1 := snd (perform_create serializer w)).
  assert (Hb : bookings w1 = (bookings w ++ [booking])%list) by reflexivity.
  assert (Hq : enqueued w1
               = (enqueued w
                  ++ [send_booking_confirmation_email_job
                        (Customer.email (validated_customer serializer))
                        (Booking.id booking)])%list).
  { unfold w1, perform_create, bind, serializer_save, delay, effect. cbn [snd].
    unfold enqueued, log_event, with_bookings. cbn [trace].
    rewrite !omap_app. cbn [omap]. rewrite app_nil_r. reflexivity. }
  assert (Hm : mails w1 = mails w).
  { unfold w1, perform_create, bind, serializer_save, delay, effect. cbn [snd].
    unfold mails, log_event, with_bookings. cbn [trace].
    rewrite !omap_app. cbn [omap]. rewrite !app_nil_r. reflexivity. }
  destruct (send_mail (booking_mail (Customer.email (validated_customer serializer))
                         (Booking.id booking))) as [n | e] eqn:Hsend.
  2: { specialize (Hmail (booking_mail (Customer.email (validated_customer serializer))
                            (Booking.id booking))).
       rewrite Hsend in Hmail. discriminate Hmail. }
  exists booking, (send_booking_confirmation_email_job
                     (Customer.email (validated_customer serializer))
                     (Booking.id booking)),
    (send_booking_confirmation_email send_mail now
       (Customer.email (validated_customer serializer)) (Booking.id booking)).
  split; [rewrite Hb; apply last_snoc|].
  split; [reflexivity|].
  split; [rewrite Hq; apply last_snoc|].
  split; [reflexivity|].
  rewrite (task_run_returns send_mail now _ _ w1 n Hsend). cbn [fst snd].
  split; [reflexivity|].
  unfold mails. cbn [trace]. rewrite omap_app. fold (mails w1). rewrite Hm. reflexivity.
Qed.

Lemma perform_create_then_worker_witness :
  (forall m : Mail, Py.is_raise (mail_ok m) = false)
  /\ exists (booking : Booking.t) (j : Job) (task : M string),
       last (enqueued (snd (perform_create (mkSerializer (Customer.mk "a@b.c"))
                              empty_world))) = Some j
       /\ run_job mail_ok "t" j = Some task
       /\ Booking.customer booking = Customer.mk "a@b.c"
       /\ fst (task (snd (perform_create (mkSerializer (Customer.mk "a@b.c"))
                           empty_world)))
          = Return ("Email sent to " +:+ "a@b.c").
Proof.
  split; [intros m; reflexivity|].
  destruct (perform_create_then_worker (mkSerializer (Customer.mk "a@b.c")) mail_ok "t"
              empty_world (fun m => eq_refl))
    as (booking & j & task & _ & Hc & Hj & Hrun & Hret & _).
  exists booking, j, task. repeat split; assumption.
Defined.

(** ** The message names its booking *)

Lemma str_int_parse (z : Z) :
  Z.of_int <$> NilZero.int_of_string (Py.str_int z) = Some z.
Proof.
  unfold Py.str_int.
  destruct (Decimal.signed_int_eq_dec (Z.to_int z) (Decimal.Pos Decimal.Nil)) as [E | N1].
  - rewrite E, NilZero.isi_posnil. simpl.
    rewrite <- (DecimalZ.of_to z), E. reflexivity.
  - destruct (Decimal.signed_int_eq_dec (Z.to_int z) (Decimal.Neg Decimal.Nil)) as [E | N2].
    + rewrite E, NilZero.isi_negnil. simpl.
      rewrite <- (DecimalZ.of_to z), E. reflexivity.
    + rewrite (NilZero.isi _ N1 N2). simpl. rewrite DecimalZ.of_to. reflexivity.
Qed.

Lemma str_int_inj (a b : Z) : Py.str_int a = Py.str_int b -> a = b.
Proof.
  intros H. pose proof (str_int_parse a) as Ha. rewrite H, str_int_parse in Ha.
  congruence.
Qed.

Lemma append_cancel_l (s t u : string) : s +:+ t = s +:+ u -> t = u.
Proof. induction s as [|c s IH]; simpl; [auto | intros [= H]; auto]. Qed.

(** X14: the message of an invocation names its booking and its recipient:
    two invocations build the same mail only when they have the same
    to_email and the same booking_id, and already the subjects differ when
    the booking ids differ. *)
Theorem booking_mail_names_booking (to1 to2 : string) (id1 id2 : Z) :
  (subject (booking_mail to1 id1) = subject (booking_mail to2 id2) -> id1 = id2)
  /\ (booking_mail to1 id1 = booking_mail to2 id2 -> to1 = to2 /\ id1 = id2).
Proof.
  assert (Hsubject : subject (booking_mail to1 id1) = subject (booking_mail to2 id2)
                     -> id1 = id2).
  { cbn [subject booking_mail]. intros H.
    apply str_int_inj, (append_cancel_l _ _ _ H). }
  split; [exact Hsubject|].
  intros H. split.
  - assert (Hr : recipient_list (booking_mail to1 id1)
                 = recipient_list (booking_mail to2 id2)) by (rewrite H; reflexivity).
    cbn [recipient_list booking_mail] in Hr. congruence.
  - apply Hsubject. rewrite H. reflexivity.
Qed.

Lemma booking_mail_names_booking_witness :
  subject (booking_mail "a@b.c" 7) = subject (booking_mail "x@y.z" 7)
  /\ 7 = 7.
Proof.
  split; [reflexivity|].
  apply (proj1 (booking_mail_names_booking "a@b.c" "x@y.z" 7 7)). reflexivity.
Defined.
